(** * insteon-mqtt protocol handlers: StandardCmd, DeviceRefresh, DeviceDbModify

  A shallow embedding of the three message handlers of
  [insteon_mqtt/handler] and the properties their specification states.

  Every handler method is a function from the handler's fields (and, where
  the method reads it, the state of the device it refers to) to the new
  fields, the list of calls it made on its collaborators, in program order,
  and the value it returns.  The collaborators (protocol, device, database
  mirror, the callbacks, the logger) are not part of these sources: a call
  on one of them is an [Effect] of the method. *)

From Stdlib Require Import ZArith List Bool Lia.
From Stdlib.Strings Require Import Byte String.
Import ListNotations.
Open Scope Z_scope.

(** ** Messages *)

Module Msg.

(** Modelled from the spec: the [message] package is not among the sources.
    An address is an opaque, equality-comparable device identifier. *)
Definition Address := Z.

(** Modelled from the spec: the reply kind carried by the flags of a
    message, [Msg.Flags.Type] in the handlers (the message package is not
    among the sources).  The handlers name [DIRECT_ACK] and [DIRECT_NAK];
    [DIRECT] is the kind of a command built by [direct]. *)
Inductive FlagsType :=
| DIRECT
| DIRECT_ACK
| DIRECT_NAK
| BROADCAST
| ALL_LINK_BROADCAST
| ALL_LINK_CLEANUP
| CLEANUP_ACK
| CLEANUP_NAK.

Record Flags := mkFlags { type : FlagsType; is_ext : bool }.

(** Modelled from the spec: the fields of the message classes the handlers
    read.  [is_ack] is [None] on a message that was built but not yet
    echoed by the modem, as Python's [None]. *)
Record OutStandard := mkOutStandard {
  os_to_addr : Address;
  os_flags : Flags;
  os_cmd1 : Z;
  os_cmd2 : Z;
  os_is_ack : option bool }.

Record OutExtended := mkOutExtended {
  oe_to_addr : Address;
  oe_flags : Flags;
  oe_cmd1 : Z;
  oe_cmd2 : Z;
  oe_data : list byte;
  oe_is_ack : option bool }.

Record InpStandard := mkInpStandard {
  is_from_addr : Address;
  is_to_addr : Address;
  is_flags : Flags;
  is_cmd1 : Z;
  is_cmd2 : Z }.

Record InpExtended := mkInpExtended {
  ie_from_addr : Address;
  ie_to_addr : Address;
  ie_flags : Flags;
  ie_cmd1 : Z;
  ie_cmd2 : Z;
  ie_data : list byte }.

(** What [isinstance] tells apart: the class of the message object.  The
    classes are siblings, so a message is of exactly one of them. *)
Inductive Message :=
| MOutStandard (m : OutStandard)
| MOutExtended (m : OutExtended)
| MInpStandard (m : InpStandard)
| MInpExtended (m : InpExtended)
| MOther.

(** The three answers of [msg_received]. *)
Inductive Result := UNKNOWN | CONTINUE | FINISHED.

(** Python's truth value of [msg.is_ack]. *)
Definition truthy (a : option bool) : bool :=
  match a with Some b => b | None => false end.

(** Python's [bytes(n)]: [n] zero bytes. *)
Definition bytes (n : nat) : list byte := repeat x00 n.

(** Modelled from the spec: [Msg.OutExtended.direct(to_addr, cmd1, cmd2,
    data)], the class method that builds an extended direct command (the
    message package is not among the sources). *)
Definition OutExtended_direct (to_addr : Address) (cmd1 cmd2 : Z)
    (data : list byte) : OutExtended :=
  {| oe_to_addr := to_addr;
     oe_flags := {| type := DIRECT; is_ext := true |};
     oe_cmd1 := cmd1;
     oe_cmd2 := cmd2;
     oe_data := data;
     oe_is_ack := None |}.

End Msg.

(** The levels of the calls on [LOG]. *)
Inductive LogLevel := LOG_debug | LOG_info | LOG_warning | LOG_error.

(** ** The handler base class *)

Module Base.

(** Modelled from the spec: [handler/Base.py] is not among the sources.
    Its expiry check compares the current time against the deadline of the
    handler and answers true once the deadline is reached; it changes
    nothing. *)
Definition is_expired (expire_time t : Z) : bool := expire_time <=? t.

End Base.

(** ** StandardCmd *)

Module StandardCmd.
Import Msg.

(** The fields of the handler.  The callback is the caller's; a call of it
    is the effect [Callback]. *)
Record Handler := mk { addr : Address; cmd : Z }.

Inductive Effect :=
| Log (l : LogLevel)
| Callback (msg : InpStandard).

Record Outcome := mkOutcome {
  self_after : Handler;
  effects : list Effect;
  result : Result }.

(** [__init__(self, msg, callback)] *)
Definition init (msg : OutStandard) : Handler :=
  {| addr := os_to_addr msg; cmd := os_cmd1 msg |}.

(** [msg_received(self, protocol, msg)] *)
Definition msg_received (self : Handler) (msg : Message) : Outcome :=
  match msg with
  | MOutStandard m =>
      if (os_to_addr m =? addr self) && (os_cmd1 m =? cmd self) then
        mkOutcome self
          ((if negb (truthy (os_is_ack m)) then [Log LOG_error] else [])
             ++ [Log LOG_debug])
          CONTINUE
      else
        mkOutcome self [Log LOG_debug] UNKNOWN
  | MInpStandard m =>
      if (is_from_addr m =? addr self) && (is_cmd1 m =? cmd self) then
        mkOutcome self [Callback m] FINISHED
      else
        mkOutcome self [Log LOG_info] UNKNOWN
  | _ => mkOutcome self [] UNKNOWN
  end.

(** The messages the callback was called with, in order. *)
Definition callbacks (es : list Effect) : list InpStandard :=
  flat_map (fun e => match e with Callback m => [m] | _ => [] end) es.

(** A standard reply with the handler's address and command. *)
Definition matches (self : Handler) (m : Message) : bool :=
  match m with
  | MInpStandard r => (is_from_addr r =? addr self) && (is_cmd1 r =? cmd self)
  | _ => false
  end.

(** The messages of [msgs] offered in order to the handler for as long as
    the protocol keeps it in place, that is until it answers [FINISHED]:
    everything it did, and whether it is still in place at the end. *)
Record Run := mkRun {
  done : list Effect;
  in_place : bool }.

Fixpoint offer (self : Handler) (msgs : list Message) : Run :=
  match msgs with
  | [] => mkRun [] true
  | m :: rest =>
      let o := msg_received self m in
      match result o with
      | FINISHED => mkRun (effects o) false
      | _ =>
          let r := offer (self_after o) rest in
          mkRun (effects o ++ done r) (in_place r)
      end
  end.

End StandardCmd.

(** ** DeviceRefresh *)

Module DeviceRefresh.
Import Msg.

(** The device the handler refers to, with its database mirror.  Both are
    the caller's objects and outlive the handler: the handler methods take
    the state of the device and give back the state they leave it in. *)
Class Device (D : Type) := {
  dev_addr : D -> Address;
  handle_refresh : D -> InpStandard -> D;
  db_is_current : D -> Z -> bool;
  db_clear : D -> D;
  db_set_delta : D -> Z -> D }.

(** The fields of the handler; [expire_time] is the deadline kept by the
    base class. *)
Record Handler := mk {
  addr : Address;
  msg : Message;
  force : bool;
  send_count : Z;
  num_retry : Z;
  expire_time : Z }.

(** The local function [on_done] of [msg_received], as the value handed to
    the download handler: it captures the [cmd1] of the reply. *)
Record OnDone := mkOnDone { delta : Z }.

(** Who is installed as the handler of a sent message. *)
Inductive HandlerRef :=
| Self
| DeviceDbGet (on_done : OnDone) (msg : OutExtended).

Inductive Effect :=
| Log (l : LogLevel)
| Send (msg : Message) (h : HandlerRef)
| HandleRefresh (msg : InpStandard)
| DbClear
| DbSetDelta (delta : Z).

(** [__init__(self, device, msg, force, num_retry=3)]; [deadline] is what
    the base class constructor leaves as the deadline. *)
Definition init {D} `{Device D} (device : D) (msg : Message) (force : bool)
    (num_retry : Z) (deadline : Z) : Handler :=
  {| addr := dev_addr device;
     msg := msg;
     force := force;
     send_count := 1;
     num_retry := num_retry;
     expire_time := deadline |}.

Definition default_num_retry : Z := 3.

(** Modelled from the spec: the deadline of a handler is set at
    construction and again at the last send of its message (base class and
    protocol, not among the sources). *)
Definition set_expire_time (self : Handler) (deadline : Z) : Handler :=
  {| addr := addr self;
     msg := msg self;
     force := force self;
     send_count := send_count self;
     num_retry := num_retry self;
     expire_time := deadline |}.

Definition set_send_count (self : Handler) (n : Z) : Handler :=
  {| addr := addr self;
     msg := msg self;
     force := force self;
     send_count := n;
     num_retry := num_retry self;
     expire_time := expire_time self |}.

(** [is_expired(self, protocol, t)] *)
Definition is_expired (self : Handler) (t : Z)
    : Handler * list Effect * bool :=
  if negb (Base.is_expired (expire_time self) t) then
    (self, [], false)
  else
    if send_count self <? num_retry self then
      let self' := set_send_count self (send_count self + 1) in
      (self', [Log LOG_warning; Send (msg self) Self], true)
    else
      (self, [Log LOG_warning], true).

(** The body of the local [on_done(success, message)]. *)
Definition on_done {D} `{Device D} (c : OnDone) (success : bool) (device : D)
    : D * list Effect :=
  if success then
    (db_set_delta device (delta c), [Log LOG_info; DbSetDelta (delta c)])
  else
    (device, []).

(** The message built as [db_msg]. *)
Definition db_msg (self : Handler) : OutExtended :=
  OutExtended_direct (addr self) 0x2f 0x00 (bytes 14).

Record Outcome (D : Type) := mkOutcome {
  self_after : Handler;
  device : D;
  effects : list Effect;
  result : Result }.
Arguments mkOutcome {D}.
Arguments self_after {D}.
Arguments device {D}.
Arguments effects {D}.
Arguments result {D}.

(** [msg_received(self, protocol, msg)] *)
Definition msg_received {D} `{Device D} (self : Handler) (dev : D) (m : Message)
    : Outcome D :=
  match m with
  | MOutStandard e =>
      if os_to_addr e =? addr self then
        if truthy (os_is_ack e) then
          mkOutcome self dev [Log LOG_debug] CONTINUE
        else
          mkOutcome self dev [Log LOG_error] FINISHED
      else
        mkOutcome self dev [] UNKNOWN
  | MInpStandard r =>
      if is_from_addr r =? addr self then
        let self1 := set_send_count self (num_retry self) in
        let dev1 := handle_refresh dev r in
        if negb (force self1) && db_is_current dev1 (is_cmd1 r) then
          mkOutcome self1 dev1 [HandleRefresh r; Log LOG_info] FINISHED
        else
          let dev2 := db_clear dev1 in
          let db_msg := db_msg self1 in
          let msg_handler := DeviceDbGet (mkOnDone (is_cmd1 r)) db_msg in
          mkOutcome self1 dev2
            [HandleRefresh r; Log LOG_info; DbClear;
             Send (MOutExtended db_msg) msg_handler]
            FINISHED
      else
        mkOutcome self dev [] UNKNOWN
  | _ => mkOutcome self dev [] UNKNOWN
  end.

(** The messages handed to [protocol.send], in order. *)
Definition sends (es : list Effect) : list (Message * HandlerRef) :=
  flat_map (fun e => match e with Send m h => [(m, h)] | _ => [] end) es.

(** The calls on the database mirror that change it. *)
Definition db_writes (es : list Effect) : list Effect :=
  filter (fun e => match e with DbClear | DbSetDelta _ => true | _ => false end)
    es.

(** What happens to a handler over its life: the timer asks whether it has
    expired (the deadline being the one the protocol last set), or a message
    is offered to it. *)
Inductive Event :=
| Expire (deadline t : Z)
| Receive (m : Message).

(** A handler and its device taken through a list of events: the handler
    and the device at the end, the effects of all calls in order, and the
    answers of the expiry checks. *)
Record Trace (D : Type) := mkTrace {
  final : Handler;
  final_device : D;
  done : list Effect;
  answers : list bool }.
Arguments mkTrace {D}.
Arguments final {D}.
Arguments final_device {D}.
Arguments done {D}.
Arguments answers {D}.

Fixpoint run {D} `{Device D} (self : Handler) (dev : D) (evs : list Event)
    : Trace D :=
  match evs with
  | [] => mkTrace self dev [] []
  | Expire d t :: rest =>
      let '(self1, es, b) := is_expired (set_expire_time self d) t in
      let r := run self1 dev rest in
      mkTrace (final r) (final_device r) (es ++ done r) (b :: answers r)
  | Receive m :: rest =>
      let o := msg_received self dev m in
      let r := run (self_after o) (device o) rest in
      mkTrace (final r) (final_device r) (effects o ++ done r) (answers r)
  end.

(** An event that is not a reply to the handler at [a], an expiry check
    being one made once the deadline is reached. *)
Definition unanswered (a : Address) (e : Event) : bool :=
  match e with
  | Expire d t => Base.is_expired d t
  | Receive (MInpStandard r) => negb (is_from_addr r =? a)
  | Receive _ => true
  end.

(** The number of expiry checks among the events. *)
Fixpoint expiries (evs : list Event) : nat :=
  match evs with
  | [] => 0%nat
  | Expire _ _ :: rest => S (expiries rest)
  | Receive _ :: rest => expiries rest
  end.

(** The messages sent again with the handler itself installed, in order. *)
Definition resends (es : list Effect) : list Message :=
  flat_map (fun e => match e with Send m Self => [m] | _ => [] end) es.

(** The bound on the send counter. *)
Definition retry_invariant (self : Handler) : Prop :=
  send_count self <= num_retry self.

End DeviceRefresh.

(** ** DeviceDbModify *)

Module DeviceDbModify.
Import Msg.

Section Entries.

(** [db.DeviceEntry], a record of the all-link database.  The handler only
    passes entries on. *)
Context {Entry : Type}.

(** The fields of the handler.  [db_addr] is [self.db.addr]: the database
    mirror is the caller's object, the handler reads its address and calls
    [add_entry] on it.  [next] holds the [(msg, entry)] pairs still to send. *)
Record Handler := mk {
  db_addr : Address;
  entry : Entry;
  orig_entry : Entry;
  next : list (Message * Entry) }.

Inductive Effect :=
| Log (l : LogLevel)
| OnDone (success : bool) (message : string) (entry : option Entry)
| AddEntry (entry : Entry)
| SendSelf (msg : Message).

Record Outcome := mkOutcome {
  self_after : Handler;
  effects : list Effect;
  result : Result }.

(** [__init__(self, device_db, entry, on_done)]; [addr] is the address of
    [device_db]. *)
Definition init (addr : Address) (entry : Entry) : Handler :=
  {| db_addr := addr; entry := entry; orig_entry := entry; next := [] |}.

(** [add_update(self, msg, entry)] *)
Definition add_update (self : Handler) (msg : Message) (entry : Entry)
    : Handler :=
  match self with
  | mk a cur orig queue => mk a cur orig (queue ++ [(msg, entry)])
  end.

Definition failed : string := "Device database update failed".
Definition complete : string := "Device database update complete".

(** [msg_received(self, protocol, msg)] *)
Definition msg_received (self : Handler) (msg : Message) : Outcome :=
  match msg with
  | MOutExtended m =>
      if (oe_to_addr m =? db_addr self) && (oe_cmd1 m =? 0x2f) then
        if truthy (oe_is_ack m) then
          mkOutcome self [] CONTINUE
        else
          mkOutcome self [Log LOG_error; OnDone false failed None] FINISHED
      else
        mkOutcome self [] UNKNOWN
  | MInpStandard m =>
      if (is_from_addr m =? db_addr self) && (is_cmd1 m =? 0x2f) then
        match type (is_flags m) with
        | DIRECT_ACK =>
            match next self with
            | (msg', entry') :: rest =>
                mkOutcome
                  {| db_addr := db_addr self;
                     entry := entry';
                     orig_entry := orig_entry self;
                     next := rest |}
                  [Log LOG_info; AddEntry (entry self); Log LOG_info;
                   SendSelf msg']
                  FINISHED
            | [] =>
                mkOutcome self
                  [Log LOG_info; AddEntry (entry self);
                   OnDone true complete (Some (orig_entry self))]
                  FINISHED
            end
        | DIRECT_NAK =>
            mkOutcome self [Log LOG_error; OnDone false failed None] FINISHED
        | _ =>
            mkOutcome self [Log LOG_error; OnDone false failed None] FINISHED
        end
      else
        mkOutcome self [] UNKNOWN
  | _ => mkOutcome self [] UNKNOWN
  end.

(** The handler after construction with [e0] and one [add_update] for each
    pair of [ups], in order. *)
Definition chain (addr : Address) (e0 : Entry)
    (ups : list (Message * Entry)) : Handler :=
  fold_left (fun h p => add_update h (fst p) (snd p)) ups (init addr e0).

(** The calls of the completion callback, in order. *)
Definition on_done_calls (es : list Effect)
    : list (bool * string * option Entry) :=
  flat_map (fun e => match e with OnDone s m x => [(s, m, x)] | _ => [] end) es.

(** The entries given to [add_entry], in order. *)
Definition added (es : list Effect) : list Entry :=
  flat_map (fun e => match e with AddEntry x => [x] | _ => [] end) es.

(** The messages sent with the handler itself installed, in order. *)
Definition sent (es : list Effect) : list Message :=
  flat_map (fun e => match e with SendSelf m => [m] | _ => [] end) es.

(** The protocol keeps a handler in place until it answers [FINISHED]; a
    handler that sent a message with itself as the handler before answering
    is put in place again for that message. *)
Definition stays (o : Outcome) : bool :=
  match result o with
  | FINISHED => match sent (effects o) with [] => false | _ => true end
  | _ => true
  end.

(** The messages of [msgs] offered in order to the handler for as long as
    the protocol keeps it in place: the handler it ends as, everything it
    did, and whether it is still in place at the end. *)
Record Run := mkRun {
  final : Handler;
  done : list Effect;
  in_place : bool }.

Fixpoint offer (self : Handler) (msgs : list Message) : Run :=
  match msgs with
  | [] => mkRun self [] true
  | m :: rest =>
      let o := msg_received self m in
      if stays o then
        let r := offer (self_after o) rest in
        mkRun (final r) (effects o ++ done r) (in_place r)
      else
        mkRun (self_after o) (effects o) false
  end.

(** How the handler with database address [a] takes a message: not its own
    ([Ignored]), the modem's positive echo ([EchoAck]), the device's
    [DIRECT_ACK] ([Ack]), or one of the three failures ([Fail]): the
    modem's negative echo, [DIRECT_NAK], any other reply kind. *)
Inductive Kind := Ignored | EchoAck | Ack | Fail.

Definition kind (a : Address) (m : Message) : Kind :=
  match m with
  | MOutExtended e =>
      if (oe_to_addr e =? a) && (oe_cmd1 e =? 0x2f) then
        if truthy (oe_is_ack e) then EchoAck else Fail
      else Ignored
  | MInpStandard r =>
      if (is_from_addr r =? a) && (is_cmd1 r =? 0x2f) then
        match type (is_flags r) with
        | DIRECT_ACK => Ack
        | _ => Fail
        end
      else Ignored
  | _ => Ignored
  end.

Definition is_ack (a : Address) (m : Message) : bool :=
  match kind a m with Ack => true | _ => false end.

Definition is_fail (a : Address) (m : Message) : bool :=
  match kind a m with Fail => true | _ => false end.

(** The number of [DIRECT_ACK] replies among [msgs]. *)
Definition acks (a : Address) (msgs : list Message) : nat :=
  List.length (filter (is_ack a) msgs).

(** No failure among [msgs]. *)
Definition no_fail (a : Address) (msgs : list Message) : bool :=
  forallb (fun m => negb (is_fail a m)) msgs.

(** The number of [DIRECT_ACK] replies among [msgs] that come before the
    first failure. *)
Fixpoint acks_until_fail (a : Address) (msgs : list Message) : nat :=
  match msgs with
  | [] => 0%nat
  | m :: rest =>
      match kind a m with
      | Fail => 0%nat
      | Ack => S (acks_until_fail a rest)
      | _ => acks_until_fail a rest
      end
  end.

(** The entries of a handler that are still to be applied, in the order of
    submission: the one in flight, then the queued ones. *)
Definition pending (self : Handler) : list Entry :=
  entry self :: map snd (next self).

(** The command byte of a message, for the classes that have one. *)
Definition cmd1_of (m : Message) : option Z :=
  match m with
  | MOutStandard x => Some (os_cmd1 x)
  | MOutExtended x => Some (oe_cmd1 x)
  | MInpStandard x => Some (is_cmd1 x)
  | MInpExtended x => Some (ie_cmd1 x)
  | MOther => None
  end.

End Entries.

Arguments Handler : clear implicits.
Arguments Effect : clear implicits.
Arguments Outcome : clear implicits.
Arguments Run : clear implicits.

End DeviceDbModify.

(** ** Concrete inputs *)

Module Sample.
Import Msg.

(** A small device to run the refresh handler on: its address, the state
    byte of the last refresh, the delta of its database mirror (none after
    [clear]) and the number of records held. *)
Record Dev := mkDev {
  d_addr : Address;
  d_level : Z;
  d_delta : option Z;
  d_records : nat }.

#[global] Instance dev_device : DeviceRefresh.Device Dev := {|
  DeviceRefresh.dev_addr := d_addr;
  DeviceRefresh.handle_refresh := fun d r =>
    mkDev (d_addr d) (is_cmd2 r) (d_delta d) (d_records d);
  DeviceRefresh.db_is_current := fun d x =>
    match d_delta d with Some y => x =? y | None => false end;
  DeviceRefresh.db_clear := fun d => mkDev (d_addr d) (d_level d) None 0;
  DeviceRefresh.db_set_delta := fun d x =>
    mkDev (d_addr d) (d_level d) (Some x) (d_records d) |}.

Definition A : Address := 0x3e4f5a.
Definition B : Address := 0x112233.

Definition direct_flags : Flags := mkFlags DIRECT false.

(** A light-on command to [A] and the refresh probe (command 0x19) to [A]. *)
Definition on_cmd : OutStandard := mkOutStandard A direct_flags 0x11 0xff None.
Definition probe : OutStandard := mkOutStandard A direct_flags 0x19 0x00 None.

(** The modem's echo of a message, positive or negative. *)
Definition echoed (m : OutStandard) (ack : bool) : OutStandard :=
  mkOutStandard (os_to_addr m) (os_flags m) (os_cmd1 m) (os_cmd2 m) (Some ack).

Definition echo (m : OutStandard) (ack : bool) : Message :=
  MOutStandard (echoed m ack).

(** A standard reply from [src] of kind [k]. *)
Definition reply (src : Address) (k : FlagsType) (cmd1 cmd2 : Z) : Message :=
  MInpStandard (mkInpStandard src 0 (mkFlags k false) cmd1 cmd2).

Definition reply_std (src : Address) (k : FlagsType) (cmd1 cmd2 : Z)
    : InpStandard :=
  mkInpStandard src 0 (mkFlags k false) cmd1 cmd2.

(** The echo of a database write to [dst]. *)
Definition db_echo (dst : Address) (ack : bool) : Message :=
  MOutExtended
    (mkOutExtended dst (mkFlags DIRECT true) 0x2f 0x00 (bytes 14) (Some ack)).

Definition db_write (dst : Address) (n : Z) : Message :=
  MOutExtended
    (mkOutExtended dst (mkFlags DIRECT true) 0x2f n (bytes 14) None).

(** A device at [A] whose mirror is at delta 7. *)
Definition dev7 : Dev := mkDev A 0 (Some 7) 4.

Definition refresh : DeviceRefresh.Handler :=
  DeviceRefresh.init dev7 (MOutStandard probe) false
    DeviceRefresh.default_num_retry 100.

(** The echo of the light-on command, and replies to it from [B] and from
    [A]. *)
Definition on_echo : OutStandard := echoed on_cmd true.
Definition on_reply_B : InpStandard := reply_std B DIRECT_ACK 0x11 0xff.
Definition on_reply_A : InpStandard := reply_std A DIRECT_NAK 0x11 0x00.

(** A refresh reply from [A] that reports delta 7, and one that reports
    delta 8. *)
Definition fresh_reply : InpStandard := reply_std A DIRECT_ACK 0x07 0xff.
Definition stale_reply : InpStandard := reply_std A DIRECT_ACK 0x08 0xff.

(** Events without a reply from [A]: four expired checks, an echo of the
    probe and a reply from another device in between. *)
Definition silence : list DeviceRefresh.Event :=
  [ DeviceRefresh.Expire 100 105;
    DeviceRefresh.Receive (echo probe true);
    DeviceRefresh.Expire 110 110;
    DeviceRefresh.Receive (reply B DIRECT_ACK 0x07 0x00);
    DeviceRefresh.Expire 115 120;
    DeviceRefresh.Expire 125 300 ].

(** A two-step database change on the device at [A]: entry 1 given at
    construction, entry 2 added with the message [db_write A 2]. *)
Definition two_steps : DeviceDbModify.Handler nat :=
  DeviceDbModify.chain A 1%nat [(db_write A 2, 2%nat)].

Definition three_steps : DeviceDbModify.Handler nat :=
  DeviceDbModify.chain A 1%nat [(db_write A 2, 2%nat); (db_write A 3, 3%nat)].

(** The two-step change confirmed step by step: echo and DIRECT_ACK of the
    first write, echo and DIRECT_ACK of the second. *)
Definition confirmed : list Message :=
  [ db_echo A true; reply A DIRECT_ACK 0x2f 0x00;
    db_echo A true; reply A DIRECT_ACK 0x2f 0x00 ].

(** A three-step change whose second write the device rejects; a stray
    reply from another device comes in between, and a late DIRECT_ACK
    after the rejection. *)
Definition rejected : list Message :=
  [ db_echo A true; reply A DIRECT_ACK 0x2f 0x00;
    reply B DIRECT_ACK 0x2f 0x00;
    db_echo A true; reply A DIRECT_NAK 0x2f 0xff;
    reply A DIRECT_ACK 0x2f 0x00 ].

(** Traffic seen by the handler of the light-on command: a NAK echo, a
    reply from [B], the reply from [A], and that reply once more. *)
Definition on_traffic : list Message :=
  [ echo on_cmd false; MInpStandard on_reply_B;
    MInpStandard on_reply_A; MInpStandard on_reply_A ].

(** The first write of a two-step change echoed and confirmed. *)
Definition first_confirmed : list Message :=
  [ db_echo A true; reply A DIRECT_ACK 0x2f 0x00 ].

End Sample.

(** * Properties *)

(** ** StandardCmd *)

Section StandardCmdFacts.
Import Msg StandardCmd.

Lemma standard_cmd_keeps_fields (self : Handler) (m : Message) :
  self_after (msg_received self m) = self.
Proof.
  destruct m as [e | e | r | r | ]; cbn; try reflexivity.
  - destruct ((os_to_addr e =? addr self) && (os_cmd1 e =? cmd self));
      reflexivity.
  - destruct ((is_from_addr r =? addr self) && (is_cmd1 r =? cmd self));
      reflexivity.
Qed.

Lemma both_match_iff (a b c d : Z) :
  (a =? b) && (c =? d) = true <-> a = b /\ c = d.
Proof.
  rewrite andb_true_iff, !Z.eqb_eq. tauto.
Qed.

(** C6: an echo offered to a StandardCmd handler is answered CONTINUE exactly
    when its destination address and cmd1 are those of the message the
    handler was built from, whether the echo is an ACK or a NAK; every other
    echo is answered UNKNOWN, so no echo ends the handler; no echo calls the
    callback, and the handler is left as it was. *)
Theorem standard_cmd_echo (out e : OutStandard) :
  let o := msg_received (init out) (MOutStandard e) in
  (result o = CONTINUE <->
     os_to_addr e = os_to_addr out /\ os_cmd1 e = os_cmd1 out)
  /\ (result o = UNKNOWN <->
        ~ (os_to_addr e = os_to_addr out /\ os_cmd1 e = os_cmd1 out))
  /\ callbacks (effects o) = []
  /\ self_after o = init out.
Proof.
  cbn.
  pose proof (both_match_iff (os_to_addr e) (os_to_addr out)
                (os_cmd1 e) (os_cmd1 out)) as M.
  destruct ((os_to_addr e =? os_to_addr out) && (os_cmd1 e =? os_cmd1 out));
    cbn.
  - assert (os_to_addr e = os_to_addr out /\ os_cmd1 e = os_cmd1 out) as K
      by (apply M; reflexivity).
    split; [ | split; [ | split ] ].
    + split; [ intros _; exact K | reflexivity ].
    + split; [ discriminate | intros N; contradiction ].
    + destruct (truthy (os_is_ack e)); reflexivity.
    + reflexivity.
  - assert (~ (os_to_addr e = os_to_addr out /\ os_cmd1 e = os_cmd1 out)) as K
      by (intros K; apply M in K; discriminate).
    split; [ | split; [ | split ] ].
    + split; [ discriminate | intros N; contradiction ].
    + split; [ intros _; exact K | reflexivity ].
    + reflexivity.
    + reflexivity.
Qed.

(** C7: a standard reply whose source address or cmd1 is not the expected
    one is answered UNKNOWN, without a call of the callback and with the
    handler left as it was; a reply matching both that is offered next makes
    the handler call the callback with that reply and answer FINISHED,
    whatever the kind of the reply. *)
Theorem standard_cmd_mismatch_then_match (self : Handler)
    (bad good : InpStandard) :
  is_from_addr bad <> addr self \/ is_cmd1 bad <> cmd self ->
  is_from_addr good = addr self ->
  is_cmd1 good = cmd self ->
  let o1 := msg_received self (MInpStandard bad) in
  let o2 := msg_received (self_after o1) (MInpStandard good) in
  result o1 = UNKNOWN
  /\ callbacks (effects o1) = []
  /\ self_after o1 = self
  /\ result o2 = FINISHED
  /\ callbacks (effects o2) = [good].
Proof.
  intros Hbad Ha Hc o1 o2.
  assert (self_after o1 = self) as Hkeep by apply standard_cmd_keeps_fields.
  subst o2. rewrite Hkeep. subst o1. cbn.
  pose proof (both_match_iff (is_from_addr bad) (addr self)
                (is_cmd1 bad) (cmd self)) as M.
  destruct ((is_from_addr bad =? addr self) && (is_cmd1 bad =? cmd self)).
  - exfalso. destruct M as [M _]. specialize (M eq_refl). tauto.
  - rewrite Ha, Hc, !Z.eqb_refl. cbn. repeat split.
Qed.

Lemma standard_cmd_mismatch_then_match_witness :
  result (msg_received (init Sample.on_cmd) (MInpStandard Sample.on_reply_B))
  = UNKNOWN
  /\ callbacks
       (effects
          (msg_received (init Sample.on_cmd) (MInpStandard Sample.on_reply_B)))
     = []
  /\ self_after
       (msg_received (init Sample.on_cmd) (MInpStandard Sample.on_reply_B))
     = init Sample.on_cmd
  /\ result
       (msg_received
          (self_after
             (msg_received (init Sample.on_cmd)
                (MInpStandard Sample.on_reply_B)))
          (MInpStandard Sample.on_reply_A))
     = FINISHED
  /\ callbacks
       (effects
          (msg_received
             (self_after
                (msg_received (init Sample.on_cmd)
                   (MInpStandard Sample.on_reply_B)))
             (MInpStandard Sample.on_reply_A)))
     = [Sample.on_reply_A].
Proof.
  apply (standard_cmd_mismatch_then_match (init Sample.on_cmd)
           Sample.on_reply_B Sample.on_reply_A).
  - left. vm_compute. discriminate.
  - reflexivity.
  - reflexivity.
Defined.

End StandardCmdFacts.

(** ** DeviceRefresh *)

Section DeviceRefreshFacts.
Import Msg DeviceRefresh.
Context {D : Type} `{Device D}.

Lemma set_expire_time_same (self : Handler) :
  set_expire_time self (expire_time self) = self.
Proof. destruct self; reflexivity. Qed.

Lemma sends_app (xs ys : list Effect) :
  sends (xs ++ ys) = sends xs ++ sends ys.
Proof. apply flat_map_app. Qed.

(** An expiry check before the deadline. *)
Lemma is_expired_early (self : Handler) (t : Z) :
  t < expire_time self -> is_expired self t = (self, [], false).
Proof.
  intros Ht. unfold is_expired, Base.is_expired.
  destruct (Z.leb_spec (expire_time self) t); [ lia | reflexivity ].
Qed.

(** An expiry check once the deadline is reached, by the two cases of the
    send counter. *)
Lemma is_expired_resend (self : Handler) (t : Z) :
  Base.is_expired (expire_time self) t = true ->
  send_count self < num_retry self ->
  is_expired self t =
    (set_send_count self (send_count self + 1),
     [Log LOG_warning; Send (msg self) Self], true).
Proof.
  intros He Hc. unfold is_expired. rewrite He. cbn.
  destruct (Z.ltb_spec (send_count self) (num_retry self));
    [ reflexivity | lia ].
Qed.

Lemma is_expired_give_up (self : Handler) (t : Z) :
  Base.is_expired (expire_time self) t = true ->
  num_retry self <= send_count self ->
  is_expired self t = (self, [Log LOG_warning], true).
Proof.
  intros He Hc. unfold is_expired. rewrite He. cbn.
  destruct (Z.ltb_spec (send_count self) (num_retry self));
    [ lia | reflexivity ].
Qed.

(** A message that is not a reply from the handler's device leaves the
    handler and the device as they are and sends nothing. *)
Lemma msg_received_not_reply (self : Handler) (dev : D) (m : Message) :
  unanswered (addr self) (Receive m) = true ->
  let o := msg_received self dev m in
  self_after o = self /\ device o = dev /\ sends (effects o) = [].
Proof.
  destruct m as [e | e | r | r | ]; cbn; intros Hu.
  - destruct (os_to_addr e =? addr self); [ | repeat split ].
    destruct (truthy (os_is_ack e)); repeat split.
  - repeat split.
  - destruct (is_from_addr r =? addr self); [ discriminate | repeat split ].
  - repeat split.
  - repeat split.
Qed.


(** A handler that gets no reply, run through expired checks and other
    messages: it resends its probe once per check for as long as the send
    counter is below the limit, and answers every check with true. *)
Lemma run_unanswered (evs : list Event) :
  forall (self : Handler) (dev : D),
    forallb (unanswered (addr self)) evs = true ->
    let r := run self dev evs in
    let n := Nat.min (expiries evs)
               (Z.to_nat (num_retry self - send_count self)) in
    sends (done r) = repeat (msg self, Self) n
    /\ answers r = repeat true (expiries evs)
    /\ send_count (final r) = send_count self + Z.of_nat n
    /\ final_device r = dev.
Proof.
  induction evs as [ | ev rest IH ]; intros self dev Hall.
  - cbn. repeat split. lia.
  - cbn in Hall. apply andb_true_iff in Hall. destruct Hall as [Hev Hrest].
    destruct ev as [d t | m].
    + cbn [run expiries]. cbn in Hev.
      destruct (Z_lt_le_dec (send_count self) (num_retry self)) as [Hlt | Hge].
      * rewrite (is_expired_resend (set_expire_time self d) t Hev Hlt).
        set (self1 := set_send_count (set_expire_time self d)
                        (send_count (set_expire_time self d) + 1)).
        specialize (IH self1 dev Hrest). cbn zeta in IH.
        destruct IH as (Is & Ia & Ic & Id).
        cbn [done answers final final_device].
        replace (Z.to_nat (num_retry self - send_count self))
          with (S (Z.to_nat (num_retry self1 - send_count self1)))
          by (subst self1; cbn; lia).
        cbn [Nat.min repeat].
        repeat split.
        -- cbn. f_equal. exact Is.
        -- f_equal. exact Ia.
        -- rewrite Ic. subst self1. cbn. lia.
        -- exact Id.
      * rewrite (is_expired_give_up (set_expire_time self d) t Hev Hge).
        specialize (IH (set_expire_time self d) dev Hrest). cbn zeta in IH.
        destruct IH as (Is & Ia & Ic & Id).
        cbn [done answers final final_device].
        cbn [set_expire_time num_retry send_count msg] in Is, Ic.
        replace (Z.to_nat (num_retry self - send_count self)) with 0%nat
          in * by lia.
        rewrite Nat.min_0_r in *.
        repeat split.
        -- cbn. exact Is.
        -- cbn. f_equal. exact Ia.
        -- exact Ic.
        -- exact Id.
    + cbn [run expiries].
      destruct (msg_received_not_reply self dev m Hev) as (Hs & Hd & He).
      rewrite Hs, Hd.
      specialize (IH self dev Hrest). cbn zeta in IH.
      destruct IH as (Is & Ia & Ic & Id).
      cbn [done answers final final_device].
      rewrite sends_app, He. repeat split; assumption.
Qed.

Lemma is_expired_invariant (self : Handler) (t : Z) :
  retry_invariant self -> retry_invariant (fst (fst (is_expired self t))).
Proof.
  unfold retry_invariant, is_expired. intros Hinv.
  destruct (negb (Base.is_expired (expire_time self) t)); [ exact Hinv | ].
  destruct (Z.ltb_spec (send_count self) (num_retry self)); cbn; lia.
Qed.

Lemma msg_received_invariant (self : Handler) (dev : D) (m : Message) :
  retry_invariant self -> retry_invariant (self_after (msg_received self dev m)).
Proof.
  unfold retry_invariant. intros Hinv.
  destruct m as [e | e | r | r | ]; cbn; try exact Hinv.
  - destruct (os_to_addr e =? addr self); [ | exact Hinv ].
    destruct (truthy (os_is_ack e)); exact Hinv.
  - destruct (is_from_addr r =? addr self); [ | exact Hinv ].
    destruct (negb (force self) && db_is_current (handle_refresh dev r) (is_cmd1 r));
      cbn; lia.
Qed.

Lemma run_invariant (evs : list Event) :
  forall (self : Handler) (dev : D),
    retry_invariant self -> retry_invariant (final (run self dev evs)).
Proof.
  induction evs as [ | ev rest IH ]; intros self dev Hinv; [ exact Hinv | ].
  destruct ev as [d t | m]; cbn [run].
  - pose proof (is_expired_invariant (set_expire_time self d) t Hinv) as Hstep.
    destruct (is_expired (set_expire_time self d) t) as [[self1 es] b].
    cbn [final]. apply IH. exact Hstep.
  - cbn [final]. apply IH. apply msg_received_invariant. exact Hinv.
Qed.

(** C3 (as the code has it): the refresh handler takes an echo by its
    destination address alone, the command byte is not compared.  An echo to
    the handler's address is answered CONTINUE when it is an ACK and FINISHED
    when it is a NAK; an echo to another address is answered UNKNOWN.  The
    handler and the device are left as they were and nothing is sent. *)
Theorem refresh_echo_by_address (self : Handler) (dev : D) (e : OutStandard) :
  let o := msg_received self dev (MOutStandard e) in
  (result o <> UNKNOWN <-> os_to_addr e = addr self)
  /\ result o =
       (if os_to_addr e =? addr self then
          if truthy (os_is_ack e) then CONTINUE else FINISHED
        else UNKNOWN)
  /\ self_after o = self
  /\ device o = dev
  /\ sends (effects o) = [].
Proof.
  cbn. destruct (Z.eqb_spec (os_to_addr e) (addr self)) as [Heq | Hne].
  - destruct (truthy (os_is_ack e)); cbn;
      (split; [ split; [ intros _; exact Heq | discriminate ] | repeat split ]).
  - cbn. split; [ split; [ intros N; contradiction | intros N; contradiction ]
                | repeat split ].
Qed.

(** C4: a refresh handler built with three tries that gets no reply resends
    its stored probe, with itself as the handler, at the first two expired
    checks and at no later one: two resends after the first send, three sends
    in all.  Every expired check is answered true.  One expired check adds one
    to the send counter and resends the probe when the counter is below the
    limit, and does neither when it is not. *)
Theorem refresh_bounded_retry (dev : D) (probe : Message) (force : bool)
    (deadline : Z) (evs : list Event) :
  forallb (unanswered (dev_addr dev)) evs = true ->
  let r := run (init dev probe force 3 deadline) dev evs in
  sends (done r) = repeat (probe, Self) (Nat.min (expiries evs) 2)
  /\ answers r = repeat true (expiries evs)
  /\ send_count (final r) = 1 + Z.of_nat (Nat.min (expiries evs) 2)
  /\ (forall self t,
        Base.is_expired (expire_time self) t = true ->
        send_count self < num_retry self ->
        is_expired self t =
          (set_send_count self (send_count self + 1),
           [Log LOG_warning; Send (msg self) Self], true))
  /\ (forall self t,
        Base.is_expired (expire_time self) t = true ->
        num_retry self <= send_count self ->
        is_expired self t = (self, [Log LOG_warning], true)).
Proof.
  intros Hall r.
  destruct (run_unanswered evs (init dev probe force 3 deadline) dev Hall)
    as (Hs & Ha & Hc & _).
  cbn in Hs, Hc. fold r in Hs, Ha, Hc.
  change (Pos.to_nat 2) with 2%nat in *.
  repeat split; try assumption.
  - intros self t. apply is_expired_resend.
  - intros self t. apply is_expired_give_up.
Qed.

(** C5: a reply from the handler's device always reaches
    [device.handle_refresh] and is answered FINISHED.  When the handler was
    built without [force] and the mirror says it is current at the reply's
    cmd1, nothing is sent (so no download is requested and no completion
    function that could call [set_delta] is handed out), and neither [clear]
    nor [set_delta] is called: the device is left as [handle_refresh] left
    it. *)
Theorem refresh_current_db_short_circuit (self : Handler) (dev : D)
    (r : InpStandard) :
  is_from_addr r = addr self ->
  let o := msg_received self dev (MInpStandard r) in
  In (HandleRefresh r) (effects o)
  /\ result o = FINISHED
  /\ (force self = false ->
      db_is_current (handle_refresh dev r) (is_cmd1 r) = true ->
      sends (effects o) = []
      /\ db_writes (effects o) = []
      /\ device o = handle_refresh dev r).
Proof.
  intros Ha. cbn. rewrite Ha, Z.eqb_refl. cbn.
  destruct (force self) eqn:Hf; cbn.
  - split; [ left; reflexivity | split; [ reflexivity | discriminate ] ].
  - destruct (db_is_current (handle_refresh dev r) (is_cmd1 r)) eqn:Hc; cbn.
    + split; [ left; reflexivity | split; [ reflexivity | ] ].
      intros _ _. repeat split.
    + split; [ left; reflexivity | split; [ reflexivity | ] ].
      intros _ N. discriminate N.
Qed.

(** C9: an expiry check made before the deadline answers false, leaves the
    handler as it was and has no effect, so nothing is sent; any number of
    such checks in a row leaves the handler and the device as they were. *)
Theorem refresh_check_before_deadline (self : Handler) (dev : D) (t : Z)
    (ts : list Z) :
  t < expire_time self ->
  Forall (fun u => u < expire_time self) ts ->
  is_expired self t = (self, [], false)
  /\ run self dev (map (Expire (expire_time self)) ts)
     = mkTrace self dev [] (map (fun _ => false) ts).
Proof.
  intros Ht Hts. split; [ apply is_expired_early; exact Ht | ].
  induction Hts as [ | u us Hu _ IH ]; [ reflexivity | ].
  cbn [map run]. rewrite set_expire_time_same, (is_expired_early self u Hu).
  rewrite IH. reflexivity.
Qed.

(** C10: with a limit of at least one try the send counter of a refresh
    handler never exceeds the limit: it is one after construction, an expiry
    check leaves it within the limit, a received message leaves it within the
    limit (a reply from the device sets it to the limit), and so it is within
    the limit after any events. *)
Theorem refresh_send_count_bounded (dev : D) (probe : Message) (force : bool)
    (limit deadline : Z) (evs : list Event) :
  1 <= limit ->
  let self0 := init dev probe force limit deadline in
  send_count self0 = 1
  /\ retry_invariant self0
  /\ (forall self t,
        retry_invariant self -> retry_invariant (fst (fst (is_expired self t))))
  /\ (forall self dev' m,
        retry_invariant self ->
        retry_invariant (self_after (msg_received self dev' m)))
  /\ (forall self dev' r,
        is_from_addr r = addr self ->
        send_count (self_after (msg_received self dev' (MInpStandard r)))
        = num_retry self)
  /\ retry_invariant (final (run self0 dev evs)).
Proof.
  intros Hl self0.
  assert (retry_invariant self0) as H0 by (unfold retry_invariant; cbn; lia).
  split; [ reflexivity | ].
  split; [ exact H0 | ].
  split; [ intros self t; apply is_expired_invariant | ].
  split; [ intros self dev' m; apply msg_received_invariant | ].
  split; [ | apply run_invariant; exact H0 ].
  intros self dev' r Ha. cbn. rewrite Ha, Z.eqb_refl.
  destruct (_ && db_is_current (handle_refresh dev' r) (is_cmd1 r));
    reflexivity.
Qed.

End DeviceRefreshFacts.

Section StandardCmdRuns.
Import Msg StandardCmd.

(** A NAK echo of the handler's command is logged as an error and still
    answered CONTINUE. *)
Example on_cmd_nak_echo :
  msg_received (init Sample.on_cmd) (Sample.echo Sample.on_cmd false)
  = mkOutcome (mk Sample.A 0x11) [Log LOG_error; Log LOG_debug] CONTINUE.
Proof. reflexivity. Qed.

(** An echo of the probe (command 0x19) to the same device is not the
    handler's. *)
Example on_cmd_other_echo :
  msg_received (init Sample.on_cmd) (Sample.echo Sample.probe true)
  = mkOutcome (mk Sample.A 0x11) [Log LOG_debug] UNKNOWN.
Proof. reflexivity. Qed.

End StandardCmdRuns.

Section DeviceRefreshRuns.
Import Msg DeviceRefresh.

(** A reply that reports a delta other than the mirror's: the mirror is
    cleared and the download requested; the handler will not resend. *)
Example refresh_stale_reply :
  msg_received Sample.refresh Sample.dev7 (MInpStandard Sample.stale_reply)
  = mkOutcome (mk Sample.A (MOutStandard Sample.probe) false 3 3 100)
      (Sample.mkDev Sample.A 0xff None 0)
      [ HandleRefresh Sample.stale_reply; Log LOG_info; DbClear;
        Send (MOutExtended (db_msg Sample.refresh))
          (DeviceDbGet (mkOnDone 0x08) (db_msg Sample.refresh)) ]
      FINISHED.
Proof. reflexivity. Qed.

(** The completion function of the download sets the delta of the reply,
    and only on success. *)
Example refresh_on_done :
  on_done (mkOnDone 0x08) true (Sample.mkDev Sample.A 0xff None 0)
  = (Sample.mkDev Sample.A 0xff (Some 0x08) 0, [Log LOG_info; DbSetDelta 0x08])
  /\ on_done (mkOnDone 0x08) false (Sample.mkDev Sample.A 0xff None 0)
     = (Sample.mkDev Sample.A 0xff None 0, []).
Proof. split; reflexivity. Qed.


(** The refresh handler of [Sample], whose probe is command 0x19, takes the
    echo of a light-on command (0x11) to its device. *)
Lemma refresh_echo_other_command_claimed :
  os_to_addr Sample.on_echo = addr Sample.refresh
  /\ msg Sample.refresh = MOutStandard Sample.probe
  /\ os_cmd1 Sample.on_echo <> os_cmd1 Sample.probe
  /\ result
       (msg_received Sample.refresh Sample.dev7 (MOutStandard Sample.on_echo))
     = CONTINUE
  /\ result
       (msg_received Sample.refresh Sample.dev7 (MOutStandard Sample.on_echo))
     <> UNKNOWN.
Proof.
  repeat split; try reflexivity; discriminate.
Qed.

Lemma refresh_bounded_retry_witness :
  sends (done (run Sample.refresh Sample.dev7 Sample.silence))
  = [ (MOutStandard Sample.probe, Self); (MOutStandard Sample.probe, Self) ]
  /\ answers (run Sample.refresh Sample.dev7 Sample.silence)
     = [true; true; true; true]
  /\ send_count (final (run Sample.refresh Sample.dev7 Sample.silence)) = 3.
Proof.
  destruct (refresh_bounded_retry Sample.dev7 (MOutStandard Sample.probe)
              false 100 Sample.silence) as (Hs & Ha & Hc & _).
  - reflexivity.
  - split; [ exact Hs | split; [ exact Ha | exact Hc ] ].
Defined.

Lemma refresh_current_db_short_circuit_witness :
  In (HandleRefresh Sample.fresh_reply)
     (effects
        (msg_received Sample.refresh Sample.dev7
           (MInpStandard Sample.fresh_reply)))
  /\ result
       (msg_received Sample.refresh Sample.dev7
          (MInpStandard Sample.fresh_reply))
     = FINISHED
  /\ sends
       (effects
          (msg_received Sample.refresh Sample.dev7
             (MInpStandard Sample.fresh_reply)))
     = []
  /\ db_writes
       (effects
          (msg_received Sample.refresh Sample.dev7
             (MInpStandard Sample.fresh_reply)))
     = []
  /\ device
       (msg_received Sample.refresh Sample.dev7
          (MInpStandard Sample.fresh_reply))
     = handle_refresh Sample.dev7 Sample.fresh_reply.
Proof.
  destruct (refresh_current_db_short_circuit Sample.refresh Sample.dev7
              Sample.fresh_reply)
    as (Hh & Hr & Hfresh).
  - reflexivity.
  - destruct Hfresh as (Hs & Hw & Hd).
    + reflexivity.
    + reflexivity.
    + split; [ exact Hh | ].
      split; [ exact Hr | ].
      split; [ exact Hs | ].
      split; [ exact Hw | exact Hd ].
Defined.

Lemma refresh_check_before_deadline_witness :
  is_expired Sample.refresh 99 = (Sample.refresh, [], false)
  /\ run Sample.refresh Sample.dev7
       [Expire 100 10; Expire 100 50; Expire 100 99]
     = mkTrace Sample.refresh Sample.dev7 [] [false; false; false].
Proof.
  apply (refresh_check_before_deadline Sample.refresh Sample.dev7 99
           [10; 50; 99]).
  - reflexivity.
  - repeat constructor.
Defined.

Lemma refresh_send_count_bounded_witness :
  retry_invariant (final (run Sample.refresh Sample.dev7 Sample.silence)).
Proof.
  destruct (refresh_send_count_bounded Sample.dev7 (MOutStandard Sample.probe)
              false 3 100 Sample.silence) as (_ & _ & _ & _ & _ & Hrun).
  - lia.
  - exact Hrun.
Defined.

End DeviceRefreshRuns.

(** ** DeviceDbModify *)

Section DeviceDbModifyFacts.
Import Msg DeviceDbModify.
Context {Entry : Type}.

Lemma on_done_calls_app (xs ys : list (Effect Entry)) :
  on_done_calls (xs ++ ys) = on_done_calls xs ++ on_done_calls ys.
Proof. apply flat_map_app. Qed.

(** The handler after construction and the updates [ups] holds [ups] as its
    queue. *)
Lemma add_updates_queue (ups : list (Message * Entry)) :
  forall self : Handler Entry,
    fold_left (fun h p => add_update h (fst p) (snd p)) ups self
    = mk (db_addr self) (entry self) (orig_entry self) (next self ++ ups).
Proof.
  induction ups as [ | [m e] ups IH ]; intros self.
  - cbn. rewrite app_nil_r. destruct self; reflexivity.
  - cbn [fold_left]. rewrite IH. destruct self as [a cur orig queue]. cbn.
    rewrite <- app_assoc. reflexivity.
Qed.

Lemma chain_fields (a : Address) (e0 : Entry) (ups : list (Message * Entry)) :
  chain a e0 ups = mk a e0 e0 ups.
Proof. unfold chain. rewrite add_updates_queue. reflexivity. Qed.

(** What [msg_received] does, by the kind of the message. *)
Lemma msg_received_by_kind (self : Handler Entry) (m : Message) :
  msg_received self m =
    match kind (db_addr self) m with
    | Ignored => mkOutcome self [] UNKNOWN
    | EchoAck => mkOutcome self [] CONTINUE
    | Fail => mkOutcome self [Log LOG_error; OnDone false failed None] FINISHED
    | Ack =>
        match next self with
        | (msg', entry') :: rest =>
            mkOutcome (mk (db_addr self) entry' (orig_entry self) rest)
              [Log LOG_info; AddEntry (entry self); Log LOG_info;
               SendSelf msg']
              FINISHED
        | [] =>
            mkOutcome self
              [Log LOG_info; AddEntry (entry self);
               OnDone true complete (Some (orig_entry self))]
              FINISHED
        end
    end.
Proof.
  destruct m as [e | e | r | r | ]; cbn; try reflexivity.
  - destruct ((oe_to_addr e =? db_addr self) && (oe_cmd1 e =? 47));
      [ | reflexivity ].
    destruct (truthy (oe_is_ack e)); reflexivity.
  - destruct ((is_from_addr r =? db_addr self) && (is_cmd1 r =? 47));
      [ | reflexivity ].
    destruct (type (is_flags r)); reflexivity.
Qed.

(** One call of [msg_received] calls the callback at most once, and exactly
    once when the handler is not kept in place. *)
Lemma msg_received_on_done (self : Handler Entry) (m : Message) :
  let o := msg_received self m in
  if stays o then on_done_calls (effects o) = []
  else exists c, on_done_calls (effects o) = [c].
Proof.
  cbv zeta. rewrite msg_received_by_kind.
  destruct (kind (db_addr self) m); cbn; try reflexivity.
  - destruct (next self) as [ | [msg' entry'] rest ]; cbn;
      [ eexists; reflexivity | reflexivity ].
  - eexists; reflexivity.
Qed.

Lemma offer_on_done (msgs : list Message) :
  forall self : Handler Entry,
    let r := offer self msgs in
    if in_place r then on_done_calls (done r) = []
    else exists c, on_done_calls (done r) = [c].
Proof.
  induction msgs as [ | m rest IH ]; intros self; [ reflexivity | ].
  cbn [offer]. cbv zeta.
  pose proof (msg_received_on_done self m) as Hstep. cbv zeta in Hstep.
  destruct (stays (msg_received self m)).
  - cbn [in_place done]. rewrite on_done_calls_app, Hstep. cbn [app].
    apply IH.
  - cbn [in_place done]. exact Hstep.
Qed.

Lemma acks_cons (a : Address) (m : Message) (msgs : list Message) :
  acks a (m :: msgs)
  = match kind a m with Ack => S (acks a msgs) | _ => acks a msgs end.
Proof.
  unfold acks, is_ack. cbn [filter]. destruct (kind a m); reflexivity.
Qed.

Lemma no_fail_cons (a : Address) (m : Message) (msgs : list Message) :
  no_fail a (m :: msgs) = true ->
  kind a m <> Fail /\ no_fail a msgs = true.
Proof.
  unfold no_fail, is_fail. cbn [forallb]. intros Hall.
  apply andb_true_iff in Hall. destruct Hall as [Hm Hrest].
  split; [ | exact Hrest ].
  intros Hk. rewrite Hk in Hm. discriminate.
Qed.

(** Offering [pre ++ rest] to a handler that is still in place after [pre]
    is offering [rest] to what it has become. *)
Lemma offer_app (pre rest : list Message) :
  forall self : Handler Entry,
    in_place (offer self pre) = true ->
    offer self (pre ++ rest)
    = mkRun (final (offer (final (offer self pre)) rest))
        (done (offer self pre) ++ done (offer (final (offer self pre)) rest))
        (in_place (offer (final (offer self pre)) rest)).
Proof.
  induction pre as [ | m pre IH ]; intros self Hin.
  - cbn. destruct (offer self rest); reflexivity.
  - cbn [app offer] in *. destruct (stays (msg_received self m)).
    + cbn [in_place final done] in *. rewrite (IH _ Hin).
      cbn [in_place final done]. rewrite app_assoc. reflexivity.
    + cbn in Hin. discriminate.
Qed.

(** A run without a failure and with no more [DIRECT_ACK] replies than
    queued steps: the handler stays in place, the callback is not called,
    and one pending entry was applied and one queued message sent per
    [DIRECT_ACK], from the head. *)
Lemma offer_quiet (pre : list Message) :
  forall self : Handler Entry,
    no_fail (db_addr self) pre = true ->
    (acks (db_addr self) pre <= List.length (next self))%nat ->
    let k := acks (db_addr self) pre in
    let r := offer self pre in
    in_place r = true
    /\ final r = mk (db_addr self) (nth k (pending self) (entry self))
                   (orig_entry self) (skipn k (next self))
    /\ added (done r) = firstn k (pending self)
    /\ sent (done r) = firstn k (map fst (next self))
    /\ on_done_calls (done r) = [].
Proof.
  induction pre as [ | m pre IH ]; intros self Hnf Hk.
  - cbn. destruct self; repeat split.
  - apply no_fail_cons in Hnf. destruct Hnf as [Hm Hnf].
    rewrite acks_cons in Hk. cbv zeta. rewrite acks_cons.
    cbn [offer]. rewrite msg_received_by_kind.
    destruct (kind (db_addr self) m) eqn:Hkind; try contradiction.
    + cbn [stays result effects sent flat_map self_after app].
      cbn [in_place final done]. apply IH; assumption.
    + cbn [stays result effects sent flat_map self_after app].
      cbn [in_place final done]. apply IH; assumption.
    + destruct self as [a cur orig queue]. cbn [next db_addr] in *.
      destruct queue as [ | [msg' entry'] queue ]; [ cbn in Hk; lia | ].
      cbn [stays result effects sent flat_map self_after app].
      cbn [in_place final done].
      specialize (IH (mk a entry' orig queue) Hnf).
      cbn [db_addr next List.length] in IH, Hk.
      specialize (IH ltac:(lia)). cbv zeta in IH.
      destruct IH as (Hin & Hfin & Hadd & Hsent & Hcalls).
      unfold pending in *. cbn [entry next orig_entry db_addr map snd fst] in *.
      repeat split.
      * exact Hin.
      * rewrite Hfin. cbn [skipn]. f_equal.
        transitivity (nth (acks a pre) (entry' :: map snd queue) cur);
          [ | reflexivity ].
        apply nth_indep. cbn [List.length]. rewrite length_map. lia.
      * cbn. f_equal. exact Hadd.
      * cbn. f_equal. exact Hsent.
      * cbn. exact Hcalls.
Qed.

(** Over any run the entries applied are a prefix of the pending entries,
    one per [DIRECT_ACK] received before the first failure, and the messages
    sent are the same prefix of the queued messages. *)
Lemma offer_added (msgs : list Message) :
  forall self : Handler Entry,
    let k := acks_until_fail (db_addr self) msgs in
    added (done (offer self msgs)) = firstn k (pending self)
    /\ sent (done (offer self msgs)) = firstn k (map fst (next self)).
Proof.
  induction msgs as [ | m msgs IH ]; intros self; [ split; reflexivity | ].
  cbv zeta. cbn [offer acks_until_fail]. rewrite msg_received_by_kind.
  destruct (kind (db_addr self) m) eqn:Hkind.
  - cbn [stays result effects sent flat_map self_after app done]. apply IH.
  - cbn [stays result effects sent flat_map self_after app done]. apply IH.
  - destruct self as [a cur orig queue]. cbn [next db_addr entry] in *.
    destruct queue as [ | [msg' entry'] queue ].
    + cbn. unfold pending. cbn. rewrite firstn_nil. split; reflexivity.
    + destruct (IH (mk a entry' orig queue)) as [Hadd Hsent].
      unfold added, sent, pending in *. cbn in Hadd, Hsent |- *.
      rewrite Hadd, Hsent. split; reflexivity.
  - cbn. split; reflexivity.
Qed.

Lemma is_fail_kind (a : Address) (m : Message) :
  is_fail a m = true -> kind a m = Fail.
Proof. unfold is_fail. destruct (kind a m); congruence. Qed.

Lemma is_ack_kind (a : Address) (m : Message) :
  is_ack a m = true -> kind a m = Ack.
Proof. unfold is_ack. destruct (kind a m); congruence. Qed.

(** The step that ends a run: a failure, or the DIRECT_ACK of the last
    step. *)
Lemma offer_fail (self : Handler Entry) (m : Message) (post : list Message) :
  kind (db_addr self) m = Fail ->
  offer self (m :: post)
  = mkRun self [Log LOG_error; OnDone false failed None] false.
Proof.
  intros Hk. cbn [offer]. rewrite msg_received_by_kind, Hk. reflexivity.
Qed.

Lemma offer_last_ack (self : Handler Entry) (m : Message) (post : list Message) :
  kind (db_addr self) m = Ack ->
  next self = [] ->
  offer self (m :: post)
  = mkRun self
      [Log LOG_info; AddEntry (entry self);
       OnDone true complete (Some (orig_entry self))]
      false.
Proof.
  intros Hk Hq. cbn [offer]. rewrite msg_received_by_kind, Hk, Hq.
  reflexivity.
Qed.

(** C1: the messages offered to a handler built with one entry and any
    number of added updates make it call the completion callback at most
    once, and exactly once when the handler is no longer in place.  While no
    failure and no more DIRECT_ACK replies than added updates have come, the
    callback has not been called and the handler is in place.  The first
    failure (the modem's NAK echo, DIRECT_NAK or another reply kind) that
    comes before the last step is confirmed makes the handler call the
    callback at once with false and no entry; the DIRECT_ACK that confirms
    the last step makes it call the callback with true and the entry given at
    construction.  In both cases it is the one call. *)
Theorem db_modify_on_done_once (a : Address) (e0 : Entry)
    (ups : list (Message * Entry)) (msgs : list Message) :
  let self := chain a e0 ups in
  let r := offer self msgs in
  (List.length (on_done_calls (done r)) <= 1)%nat
  /\ (in_place r = false <-> List.length (on_done_calls (done r)) = 1%nat)
  /\ (no_fail a msgs = true ->
      (acks a msgs <= List.length ups)%nat ->
      in_place r = true /\ on_done_calls (done r) = [])
  /\ (forall pre m post,
        msgs = pre ++ m :: post ->
        no_fail a pre = true ->
        (acks a pre <= List.length ups)%nat ->
        is_fail a m = true ->
        done r = done (offer self pre)
                   ++ [Log LOG_error; OnDone false failed None]
        /\ on_done_calls (done r) = [(false, failed, None)]
        /\ in_place r = false)
  /\ (forall pre m post,
        msgs = pre ++ m :: post ->
        no_fail a pre = true ->
        acks a pre = List.length ups ->
        is_ack a m = true ->
        done r = done (offer self pre)
                   ++ [Log LOG_info;
                       AddEntry (nth (List.length ups) (e0 :: map snd ups) e0);
                       OnDone true complete (Some e0)]
        /\ on_done_calls (done r) = [(true, complete, Some e0)]
        /\ in_place r = false).
Proof.
  intros self r.
  assert (self = mk a e0 e0 ups) as Hself by apply chain_fields.
  pose proof (offer_on_done msgs self) as Hcalls. cbv zeta in Hcalls.
  fold r in Hcalls.
  split; [ | split; [ | split; [ | split ] ] ].
  - destruct (in_place r).
    + rewrite Hcalls. cbn. lia.
    + destruct Hcalls as [c Hc]. rewrite Hc. cbn. lia.
  - destruct (in_place r).
    + rewrite Hcalls. cbn. split; discriminate.
    + destruct Hcalls as [c Hc]. rewrite Hc. cbn. split; reflexivity.
  - intros Hnf Hk.
    destruct (offer_quiet msgs self) as (Hin & _ & _ & _ & Hnone).
    + rewrite Hself. exact Hnf.
    + rewrite Hself. exact Hk.
    + split; assumption.
  - intros pre m post Hmsgs Hnf Hk Hfail.
    destruct (offer_quiet pre self) as (Hin & Hfin & _ & _ & Hnone);
      [ rewrite Hself; exact Hnf | rewrite Hself; exact Hk | ].
    assert (db_addr (final (offer self pre)) = a) as Ha
      by (rewrite Hfin, Hself; reflexivity).
    unfold r. rewrite Hmsgs, (offer_app pre (m :: post) self Hin).
    rewrite (offer_fail (final (offer self pre)) m post)
      by (rewrite Ha; apply is_fail_kind; exact Hfail).
    cbn [done in_place]. rewrite on_done_calls_app, Hnone.
    repeat split.
  - intros pre m post Hmsgs Hnf Hk Hack.
    destruct (offer_quiet pre self) as (Hin & Hfin & _ & _ & Hnone);
      [ rewrite Hself; exact Hnf
      | rewrite Hself; cbn [db_addr next]; rewrite Hk; lia | ].
    set (h1 := final (offer self pre)) in *.
    assert (h1 = mk a (nth (List.length ups) (e0 :: map snd ups) e0) e0 [])
      as Hh1.
    { rewrite Hfin, Hself. unfold pending. cbn [db_addr entry next orig_entry].
      rewrite Hk, skipn_all. reflexivity. }
    unfold r. rewrite Hmsgs, (offer_app pre (m :: post) self Hin).
    fold h1.
    rewrite (offer_last_ack h1 m post)
      by (rewrite Hh1; cbn [db_addr next];
          first [ apply is_ack_kind; exact Hack | reflexivity ]).
    cbn [done in_place]. rewrite on_done_calls_app, Hnone.
    rewrite Hh1. cbn [entry orig_entry]. repeat split.
Qed.

(** C2: the entries are applied to the mirror in the order of submission,
    the entry given at construction first and then the added ones from the
    head of the queue: over any run the entries given to [add_entry] are the
    first [k] of them and the messages sent are the first [k] queued ones,
    [k] being the number of DIRECT_ACK replies that came before the first
    failure.  A DIRECT_ACK with a queued step applies the entry in flight
    once, takes the head of the queue and sends its message with the handler
    itself installed, without a call of the callback; a failure applies no
    entry and sends nothing. *)
Theorem db_modify_fifo (a : Address) (e0 : Entry)
    (ups : list (Message * Entry)) (msgs : list Message) :
  let r := offer (chain a e0 ups) msgs in
  let k := acks_until_fail a msgs in
  added (done r) = firstn k (e0 :: map snd ups)
  /\ sent (done r) = firstn k (map fst ups)
  /\ (forall (self : Handler Entry) m msg' entry' rest,
        kind (db_addr self) m = Ack ->
        next self = (msg', entry') :: rest ->
        msg_received self m
        = mkOutcome (mk (db_addr self) entry' (orig_entry self) rest)
            [Log LOG_info; AddEntry (entry self); Log LOG_info; SendSelf msg']
            FINISHED
        /\ stays (msg_received self m) = true)
  /\ (forall (self : Handler Entry) m,
        kind (db_addr self) m = Ack ->
        added (effects (msg_received self m)) = [entry self])
  /\ (forall (self : Handler Entry) m,
        kind (db_addr self) m = Fail ->
        added (effects (msg_received self m)) = []
        /\ sent (effects (msg_received self m)) = []).
Proof.
  cbv zeta. rewrite chain_fields.
  destruct (offer_added msgs (mk a e0 e0 ups)) as [Hadd Hsent].
  split; [ exact Hadd | ].
  split; [ exact Hsent | ].
  split; [ | split ].
  - intros self m msg' entry' rest Hk Hq.
    rewrite msg_received_by_kind, Hk, Hq. split; reflexivity.
  - intros self m Hk. rewrite msg_received_by_kind, Hk.
    destruct (next self) as [ | [msg' entry'] rest ]; reflexivity.
  - intros self m Hk. rewrite msg_received_by_kind, Hk. split; reflexivity.
Qed.

End DeviceDbModifyFacts.

Section DeviceDbModifyRuns.
Import Msg DeviceDbModify.

(** The two-step scenario of the specification: entry 1 is applied and the
    second write sent at the first DIRECT_ACK, entry 2 applied at the second
    one, and the callback called once, with entry 1. *)
Example two_steps_confirmed :
  done (offer Sample.two_steps Sample.confirmed)
  = [ Log LOG_info; AddEntry 1%nat; Log LOG_info;
      SendSelf (Sample.db_write Sample.A 2);
      Log LOG_info; AddEntry 2%nat; OnDone true complete (Some 1%nat) ].
Proof. reflexivity. Qed.

Example three_steps_rejected :
  done (offer Sample.three_steps Sample.rejected)
  = [ Log LOG_info; AddEntry 1%nat; Log LOG_info;
      SendSelf (Sample.db_write Sample.A 2);
      Log LOG_error; OnDone false failed None ].
Proof. reflexivity. Qed.

Lemma db_modify_on_done_once_witness :
  on_done_calls (done (offer Sample.two_steps Sample.confirmed))
  = [(true, complete, Some 1%nat)]
  /\ on_done_calls (done (offer Sample.three_steps Sample.rejected))
     = [(false, failed, None)].
Proof.
  split.
  - destruct (db_modify_on_done_once Sample.A 1%nat
                [(Sample.db_write Sample.A 2, 2%nat)] Sample.confirmed)
      as (_ & _ & _ & _ & Hok).
    destruct (Hok [ Sample.db_echo Sample.A true;
                    Sample.reply Sample.A DIRECT_ACK 0x2f 0x00;
                    Sample.db_echo Sample.A true ]
                (Sample.reply Sample.A DIRECT_ACK 0x2f 0x00) [])
      as (_ & Hcall & _).
    + reflexivity.
    + reflexivity.
    + reflexivity.
    + reflexivity.
    + exact Hcall.
  - destruct (db_modify_on_done_once Sample.A 1%nat
                [ (Sample.db_write Sample.A 2, 2%nat);
                  (Sample.db_write Sample.A 3, 3%nat) ] Sample.rejected)
      as (_ & _ & _ & Hbad & _).
    destruct (Hbad [ Sample.db_echo Sample.A true;
                     Sample.reply Sample.A DIRECT_ACK 0x2f 0x00;
                     Sample.reply Sample.B DIRECT_ACK 0x2f 0x00;
                     Sample.db_echo Sample.A true ]
                (Sample.reply Sample.A DIRECT_NAK 0x2f 0xff)
                [ Sample.reply Sample.A DIRECT_ACK 0x2f 0x00 ])
      as (_ & Hcall & _).
    + reflexivity.
    + reflexivity.
    + cbv. lia.
    + reflexivity.
    + exact Hcall.
Defined.

Lemma db_modify_fifo_witness :
  added (done (offer Sample.three_steps Sample.rejected)) = [1%nat]
  /\ msg_received Sample.two_steps (Sample.reply Sample.A DIRECT_ACK 0x2f 0x00)
     = mkOutcome (mk Sample.A 2%nat 1%nat [])
         [ Log LOG_info; AddEntry 1%nat; Log LOG_info;
           SendSelf (Sample.db_write Sample.A 2) ]
         FINISHED.
Proof.
  destruct (db_modify_fifo Sample.A 1%nat
              [ (Sample.db_write Sample.A 2, 2%nat);
                (Sample.db_write Sample.A 3, 3%nat) ] Sample.rejected)
    as (Hadd & _ & Hstep & _).
  split; [ exact Hadd | ].
  destruct (Hstep Sample.two_steps (Sample.reply Sample.A DIRECT_ACK 0x2f 0x00)
              (Sample.db_write Sample.A 2) 2%nat []) as [Hout _].
  - reflexivity.
  - reflexivity.
  - exact Hout.
Defined.

End DeviceDbModifyRuns.

(** ** The database opcode *)

Section Opcode.
Import Msg.
Context {D : Type} `{DeviceRefresh.Device D} {Entry : Type}.

(** C8: the opcode by which database messages are built and recognised is
    the byte 0x2f.  The only message the refresh handler sends from
    [msg_received] is the request for the whole database: an extended direct
    message to the handler's device with cmd1 0x2f, cmd2 0x00 and fourteen
    zero bytes of data, and it is sent when a reply finds the mirror stale or
    the download forced.  The modify handler answers UNKNOWN to every message
    whose cmd1 is not 0x2f. *)
Theorem db_opcode_0x2f :
  (0 <= 0x2f < 256)
  /\ (forall (self : DeviceRefresh.Handler) (dev : D) (m msg' : Message)
        (h : DeviceRefresh.HandlerRef),
        In (DeviceRefresh.Send msg' h)
           (DeviceRefresh.effects (DeviceRefresh.msg_received self dev m)) ->
        msg' = MOutExtended (DeviceRefresh.db_msg self)
        /\ exists c, h = DeviceRefresh.DeviceDbGet c (DeviceRefresh.db_msg self))
  /\ (forall self : DeviceRefresh.Handler,
        DeviceRefresh.db_msg self
        = {| oe_to_addr := DeviceRefresh.addr self;
             oe_flags := {| type := DIRECT; is_ext := true |};
             oe_cmd1 := 0x2f;
             oe_cmd2 := 0x00;
             oe_data := [ x00; x00; x00; x00; x00; x00; x00;
                          x00; x00; x00; x00; x00; x00; x00 ];
             oe_is_ack := None |})
  /\ (forall (self : DeviceRefresh.Handler) (dev : D) (r : InpStandard),
        is_from_addr r = DeviceRefresh.addr self ->
        DeviceRefresh.force self = true
        \/ DeviceRefresh.db_is_current (DeviceRefresh.handle_refresh dev r)
             (is_cmd1 r) = false ->
        DeviceRefresh.sends
          (DeviceRefresh.effects
             (DeviceRefresh.msg_received self dev (MInpStandard r)))
        = [ (MOutExtended (DeviceRefresh.db_msg self),
             DeviceRefresh.DeviceDbGet (DeviceRefresh.mkOnDone (is_cmd1 r))
               (DeviceRefresh.db_msg self)) ])
  /\ (forall (self : DeviceDbModify.Handler Entry) (m : Message),
        DeviceDbModify.result (DeviceDbModify.msg_received self m) <> UNKNOWN ->
        DeviceDbModify.cmd1_of m = Some 0x2f).
Proof.
  split; [ lia | ].
  split; [ | split; [ | split ] ].
  - intros self dev m msg' h Hin.
    destruct m as [e | e | r | r | ]; cbn in Hin; try contradiction.
    + destruct (os_to_addr e =? DeviceRefresh.addr self); cbn in Hin;
        [ | contradiction ].
      destruct (truthy (os_is_ack e)); cbn in Hin;
        destruct Hin as [Hin | []]; discriminate Hin.
    + destruct (is_from_addr r =? DeviceRefresh.addr self); cbn in Hin;
        [ | contradiction ].
      destruct (negb (DeviceRefresh.force self)
                && DeviceRefresh.db_is_current
                     (DeviceRefresh.handle_refresh dev r) (is_cmd1 r));
        cbn in Hin.
      * destruct Hin as [Hin | [Hin | []]]; discriminate Hin.
      * destruct Hin as [Hin | [Hin | [Hin | [Hin | []]]]];
          try discriminate Hin.
        injection Hin as Hm Hh. subst msg' h.
        split; [ reflexivity | eexists; reflexivity ].
  - intros self. reflexivity.
  - intros self dev r Ha Hstale. cbn. rewrite Ha, Z.eqb_refl. cbn.
    destruct Hstale as [Hf | Hc].
    + rewrite Hf. reflexivity.
    + rewrite Hc, andb_false_r. reflexivity.
  - intros self m Hres.
    destruct m as [e | e | r | r | ]; cbn in Hres |- *;
      try (exfalso; apply Hres; reflexivity).
    + destruct (Z.eqb_spec (oe_cmd1 e) 47) as [Hc | Hc].
      * rewrite Hc. reflexivity.
      * rewrite andb_false_r in Hres. exfalso; apply Hres; reflexivity.
    + destruct (Z.eqb_spec (is_cmd1 r) 47) as [Hc | Hc].
      * rewrite Hc. reflexivity.
      * rewrite andb_false_r in Hres. exfalso; apply Hres; reflexivity.
Qed.

End Opcode.

Lemma db_opcode_0x2f_witness :
  DeviceRefresh.sends
    (DeviceRefresh.effects
       (DeviceRefresh.msg_received Sample.refresh Sample.dev7
          (Msg.MInpStandard Sample.stale_reply)))
  = [ (Msg.MOutExtended (DeviceRefresh.db_msg Sample.refresh),
       DeviceRefresh.DeviceDbGet (DeviceRefresh.mkOnDone 0x08)
         (DeviceRefresh.db_msg Sample.refresh)) ]
  /\ DeviceDbModify.cmd1_of (Sample.db_echo Sample.A true) = Some 0x2f.
Proof.
  destruct (@db_opcode_0x2f Sample.Dev _ nat) as (_ & _ & _ & Hdump & Hmod).
  split.
  - apply (Hdump Sample.refresh Sample.dev7 Sample.stale_reply).
    + reflexivity.
    + right. reflexivity.
  - apply (Hmod Sample.two_steps (Sample.db_echo Sample.A true)).
    discriminate.
Defined.

(** * Further properties of the handlers *)

(** ** StandardCmd *)

Section StandardCmdLife.
Import Msg StandardCmd.

Lemma matches_spec (self : Handler) (m : Message) :
  matches self m = true <->
  exists r, m = MInpStandard r
            /\ is_from_addr r = addr self /\ is_cmd1 r = cmd self.
Proof.
  destruct m as [e | e | r | r | ]; cbn;
    try (split; [ discriminate | intros (r' & Hm & _); discriminate Hm ]).
  rewrite both_match_iff. split.
  - intros [Ha Hc]. exists r. repeat split; assumption.
  - intros (r' & Hm & Ha & Hc). injection Hm as Hm. subst r'. split; assumption.
Qed.

(** What one call does, by whether the message is the awaited reply. *)
Lemma msg_received_matches (self : Handler) (m : Message) :
  if matches self m then
    exists r, m = MInpStandard r
              /\ msg_received self m = mkOutcome self [Callback r] FINISHED
  else
    result (msg_received self m) <> FINISHED
    /\ callbacks (effects (msg_received self m)) = []
    /\ self_after (msg_received self m) = self.
Proof.
  destruct m as [e | e | r | r | ]; cbn;
    try (repeat split; discriminate).
  - destruct ((os_to_addr e =? addr self) && (os_cmd1 e =? cmd self)); cbn.
    + repeat split; [ discriminate | ].
      destruct (truthy (os_is_ack e)); reflexivity.
    + repeat split; discriminate.
  - destruct ((is_from_addr r =? addr self) && (is_cmd1 r =? cmd self)); cbn.
    + exists r. split; reflexivity.
    + repeat split; discriminate.
Qed.

(** X1: one call of [msg_received] calls the callback at most once; it
    answers FINISHED exactly when it called the callback; and a message the
    callback is called with is the offered message itself, a standard reply
    from the handler's address with the handler's command.  So an extended
    reply, or an extended echo, never reaches the callback. *)
Theorem standard_cmd_finished_iff_callback (self : Handler) (m : Message) :
  let o := msg_received self m in
  (List.length (callbacks (effects o)) <= 1)%nat
  /\ (result o = FINISHED <-> callbacks (effects o) <> [])
  /\ (forall r, In r (callbacks (effects o)) ->
        m = MInpStandard r
        /\ is_from_addr r = addr self /\ is_cmd1 r = cmd self).
Proof.
  cbv zeta. pose proof (msg_received_matches self m) as Hm.
  destruct (matches self m) eqn:Hmatch.
  - destruct Hm as (r & Hmsg & Hout). rewrite Hout. cbn.
    split; [ lia | ].
    split; [ split; [ discriminate | reflexivity ] | ].
    intros r' [Hr | []]. subst r'.
    apply matches_spec in Hmatch. destruct Hmatch as (r2 & Hm2 & Ha & Hc).
    rewrite Hmsg in Hm2. injection Hm2 as Hm2. subst r2.
    repeat split; assumption.
  - destruct Hm as (Hres & Hcb & _). rewrite Hcb. cbn.
    split; [ lia | ].
    split; [ split; [ intros N; contradiction | intros N; contradiction ] | ].
    intros r [].
Qed.

(** Until the awaited reply comes the handler stays in place and the
    callback is not called. *)
Lemma offer_no_match (msgs : list Message) :
  forall self : Handler,
    forallb (fun m => negb (matches self m)) msgs = true ->
    in_place (offer self msgs) = true
    /\ callbacks (done (offer self msgs)) = [].
Proof.
  induction msgs as [ | m rest IH ]; intros self Hall; [ split; reflexivity | ].
  cbn [forallb] in Hall. apply andb_true_iff in Hall. destruct Hall as [Hm Hrest].
  apply negb_true_iff in Hm.
  pose proof (msg_received_matches self m) as Hstep. rewrite Hm in Hstep.
  destruct Hstep as (Hres & Hcb & Hkeep).
  cbn [offer].
  destruct (result (msg_received self m)) eqn:Hr; try contradiction.
  - cbn [done in_place]. rewrite Hkeep.
    destruct (IH self Hrest) as [Hin Hnone].
    split; [ exact Hin | ].
    unfold callbacks in *. rewrite flat_map_app, Hcb, Hnone. reflexivity.
  - cbn [done in_place]. rewrite Hkeep.
    destruct (IH self Hrest) as [Hin Hnone].
    split; [ exact Hin | ].
    unfold callbacks in *. rewrite flat_map_app, Hcb, Hnone. reflexivity.
Qed.

Lemma offer_prefix (pre rest : list Message) :
  forall self : Handler,
    forallb (fun m => negb (matches self m)) pre = true ->
    callbacks (done (offer self (pre ++ rest)))
    = callbacks (done (offer self rest))
    /\ in_place (offer self (pre ++ rest)) = in_place (offer self rest).
Proof.
  induction pre as [ | m pre IH ]; intros self Hall; [ split; reflexivity | ].
  cbn [forallb] in Hall. apply andb_true_iff in Hall. destruct Hall as [Hm Hrest].
  apply negb_true_iff in Hm.
  pose proof (msg_received_matches self m) as Hstep. rewrite Hm in Hstep.
  destruct Hstep as (Hres & Hcb & Hkeep).
  cbn [app offer].
  destruct (result (msg_received self m)) eqn:Hr;
    try (exfalso; apply Hres; reflexivity);
    cbn [done in_place]; rewrite Hkeep;
    destruct (IH self Hrest) as [Hc Hi];
    (split; [ | exact Hi ]);
    unfold callbacks in *; rewrite flat_map_app, Hcb, Hc; reflexivity.
Qed.

(** X2: over the life of a handler the callback is called at most once, with
    the first standard reply that has the handler's address and command;
    the handler is taken out of place by that reply and by nothing else.
    Whether an echo was seen before, and whether it was an ACK or a NAK, makes
    no difference. *)
Theorem standard_cmd_first_reply (self : Handler) (msgs : list Message) :
  (List.length (callbacks (done (offer self msgs))) <= 1)%nat
  /\ (forallb (fun m => negb (matches self m)) msgs = true ->
      in_place (offer self msgs) = true
      /\ callbacks (done (offer self msgs)) = [])
  /\ (forall pre r post,
        msgs = pre ++ MInpStandard r :: post ->
        forallb (fun m => negb (matches self m)) pre = true ->
        matches self (MInpStandard r) = true ->
        in_place (offer self msgs) = false
        /\ callbacks (done (offer self msgs)) = [r]).
Proof.
  assert (forall pre r post,
            msgs = pre ++ MInpStandard r :: post ->
            forallb (fun m => negb (matches self m)) pre = true ->
            matches self (MInpStandard r) = true ->
            in_place (offer self msgs) = false
            /\ callbacks (done (offer self msgs)) = [r]) as Hfirst.
  { intros pre r post Hmsgs Hpre Hr.
    destruct (offer_prefix pre (MInpStandard r :: post) self Hpre) as [Hc Hi].
    rewrite Hmsgs, Hc, Hi. cbn [offer].
    pose proof (msg_received_matches self (MInpStandard r)) as Hstep.
    rewrite Hr in Hstep. destruct Hstep as (r' & Hm & Hout).
    injection Hm as Hm. subst r'. rewrite Hout. cbn. split; reflexivity. }
  split; [ | split; [ apply offer_no_match | exact Hfirst ] ].
  destruct (forallb (fun m => negb (matches self m)) msgs) eqn:Hall.
  - destruct (offer_no_match msgs self Hall) as [_ Hnone]. rewrite Hnone.
    cbn. lia.
  - assert (exists pre m post,
              msgs = pre ++ m :: post
              /\ forallb (fun m => negb (matches self m)) pre = true
              /\ matches self m = true) as (pre & m & post & Hmsgs & Hpre & Hm).
    { clear Hfirst. induction msgs as [ | m rest IH ]; [ discriminate | ].
      cbn [forallb] in Hall. destruct (matches self m) eqn:Hm.
      - exists [], m, rest. repeat split; assumption.
      - cbn in Hall. destruct (IH Hall) as (pre & m' & post & Hr & Hp & Hm').
        exists (m :: pre), m', post. repeat split.
        + cbn. rewrite Hr. reflexivity.
        + cbn. rewrite Hm. cbn. exact Hp.
        + exact Hm'. }
    pose proof Hm as Hm'. apply matches_spec in Hm'.
    destruct Hm' as (r & Hmr & _). subst m.
    destruct (Hfirst pre r post Hmsgs Hpre Hm) as [_ Hone]. rewrite Hone.
    cbn. lia.
Qed.

End StandardCmdLife.

(** ** DeviceRefresh *)

Section DeviceRefreshLife.
Import Msg DeviceRefresh.
Context {D : Type} `{Device D}.

Lemma resends_app (xs ys : list Effect) :
  resends (xs ++ ys) = resends xs ++ resends ys.
Proof. apply flat_map_app. Qed.

(** X3: the expiry check answers what the base class answers, whether or
    not it resent the probe; of the handler it changes the send counter
    only, by one at most and never downwards; and whatever it sends is the
    stored probe with the handler itself installed. *)
Theorem refresh_is_expired_frame (self : Handler) (t : Z) :
  let self' := fst (fst (is_expired self t)) in
  let es := snd (fst (is_expired self t)) in
  snd (is_expired self t) = Base.is_expired (expire_time self) t
  /\ self' = set_send_count self (send_count self')
  /\ send_count self <= send_count self' <= send_count self + 1
  /\ (forall m h, In (Send m h) es -> m = msg self /\ h = Self)
  /\ (send_count self' = send_count self + 1 <-> sends es = [(msg self, Self)])
  /\ (send_count self' = send_count self <-> sends es = []).
Proof.
  cbv zeta. unfold is_expired.
  destruct (Base.is_expired (expire_time self) t); cbn [negb].
  - destruct (send_count self <? num_retry self); cbn.
    + split; [ reflexivity | ].
      split; [ reflexivity | ].
      split; [ lia | ].
      split.
      * intros m h [Hl | [Hs | []]]; [ discriminate Hl | ].
        injection Hs as Hm Hh. subst. split; reflexivity.
      * split; split; intros K; try reflexivity; try discriminate K; lia.
    + split; [ reflexivity | ].
      split; [ destruct self; reflexivity | ].
      split; [ lia | ].
      split.
      * intros m h [Hl | []]. discriminate Hl.
      * split; split; intros K; try reflexivity; try discriminate K; lia.
  - cbn. split; [ reflexivity | ].
    split; [ destruct self; reflexivity | ].
    split; [ lia | ].
    split; [ intros m h [] | ].
    split; split; intros K; try reflexivity; try discriminate K; lia.
Qed.

(** X4: the device is touched, the handler changed and a message sent only
    by a standard reply that comes from the handler's address: an echo, an
    extended message, a reply from another device leave all three alone. *)
Theorem refresh_only_reply_acts (self : Handler) (dev : D) (m : Message) :
  let o := msg_received self dev m in
  (self_after o = self /\ device o = dev /\ sends (effects o) = []
   /\ (forall r, ~ In (HandleRefresh r) (effects o))
   /\ db_writes (effects o) = [])
  \/ (exists r, m = MInpStandard r /\ is_from_addr r = addr self).
Proof.
  cbv zeta. destruct m as [e | e | r | r | ]; cbn.
  - left. destruct (os_to_addr e =? addr self);
      [ destruct (truthy (os_is_ack e)) | ]; cbn;
      repeat split; intros r K; cbn in K; intuition discriminate.
  - left. repeat split. intros r K. exact K.
  - destruct (Z.eqb_spec (is_from_addr r) (addr self)) as [Ha | Ha].
    + right. exists r. split; [ reflexivity | exact Ha ].
    + left. repeat split. intros r' K. exact K.
  - left. repeat split. intros r' K. exact K.
  - left. repeat split. intros r' K. exact K.
Qed.

(** One event never adds a resend without using up one of the tries left. *)
Lemma is_expired_budget (self : Handler) (t : Z) :
  let self' := fst (fst (is_expired self t)) in
  let es := snd (fst (is_expired self t)) in
  msg self' = msg self
  /\ num_retry self' = num_retry self
  /\ (List.length (resends es)
      + Z.to_nat (num_retry self' - send_count self')
      <= Z.to_nat (num_retry self - send_count self))%nat
  /\ Forall (eq (msg self)) (resends es).
Proof.
  cbv zeta. unfold is_expired.
  destruct (negb (Base.is_expired (expire_time self) t)); cbn.
  - repeat split; [ lia | constructor ].
  - destruct (Z.ltb_spec (send_count self) (num_retry self)); cbn.
    + repeat split; [ lia | repeat constructor ].
    + repeat split; [ lia | constructor ].
Qed.

Lemma msg_received_budget (self : Handler) (dev : D) (m : Message) :
  let o := msg_received self dev m in
  msg (self_after o) = msg self
  /\ num_retry (self_after o) = num_retry self
  /\ (Z.to_nat (num_retry (self_after o) - send_count (self_after o))
      <= Z.to_nat (num_retry self - send_count self))%nat
  /\ resends (effects o) = [].
Proof.
  cbv zeta. destruct m as [e | e | r | r | ]; cbn;
    try (repeat split; lia).
  - destruct (os_to_addr e =? addr self);
      [ destruct (truthy (os_is_ack e)) | ]; cbn; repeat split; lia.
  - destruct (is_from_addr r =? addr self); cbn; [ | repeat split; lia ].
    destruct (negb (force self)
              && db_is_current (handle_refresh dev r) (is_cmd1 r));
      cbn; repeat split; lia.
Qed.

Lemma run_budget (evs : list Event) :
  forall (self : Handler) (dev : D),
    (List.length (resends (done (run self dev evs)))
     <= Z.to_nat (num_retry self - send_count self))%nat
    /\ Forall (eq (msg self)) (resends (done (run self dev evs))).
Proof.
  induction evs as [ | ev rest IH ]; intros self dev.
  - cbn. split; [ lia | constructor ].
  - destruct ev as [d t | m]; cbn [run].
    + pose proof (is_expired_budget (set_expire_time self d) t) as Hstep.
      cbv zeta in Hstep.
      destruct (is_expired (set_expire_time self d) t) as [[self1 es] b].
      cbn [fst snd] in Hstep. destruct Hstep as (Hm & Hn & Hb & Hall).
      cbn [done]. cbn [set_expire_time msg num_retry send_count] in *.
      destruct (IH self1 dev) as [Hlen Hsame].
      rewrite resends_app, length_app. split; [ lia | ].
      apply Forall_app. split; [ exact Hall | ].
      rewrite <- Hm. exact Hsame.
    + pose proof (msg_received_budget self dev m) as Hstep.
      cbv zeta in Hstep. destruct Hstep as (Hm & Hn & Hb & Hnone).
      cbn [done].
      destruct (IH (self_after (msg_received self dev m))
                  (device (msg_received self dev m))) as [Hlen Hsame].
      rewrite resends_app, Hnone. cbn [app]. split; [ lia | ].
      rewrite <- Hm. exact Hsame.
Qed.

(** X5: whatever happens to a refresh handler (expiry checks before or
    after the deadline, echoes, replies, other messages, in any order) it
    resends nothing but its stored probe, and at most [num_retry - 1] times;
    with a limit of one try or less it never resends. *)
Theorem refresh_resends_bounded (dev : D) (probe : Message) (force : bool)
    (limit deadline : Z) (evs : list Event) :
  let r := run (init dev probe force limit deadline) dev evs in
  (List.length (resends (done r)) <= Z.to_nat (limit - 1))%nat
  /\ Forall (eq probe) (resends (done r))
  /\ (limit <= 1 -> resends (done r) = []).
Proof.
  cbv zeta.
  destruct (run_budget evs (init dev probe force limit deadline) dev)
    as [Hlen Hsame].
  cbn [init num_retry send_count msg] in Hlen, Hsame.
  split; [ exact Hlen | ].
  split; [ exact Hsame | ].
  intros Hl.
  destruct (resends (done (run (init dev probe force limit deadline) dev evs)))
    as [ | x xs ]; [ reflexivity | ].
  cbn in Hlen. lia.
Qed.

(** X6: a reply from the device turns the retries off: whatever comes after
    it, expired checks included, the handler never resends its probe. *)
Theorem refresh_no_resend_after_reply (self : Handler) (dev : D)
    (r : InpStandard) (evs : list Event) :
  is_from_addr r = addr self ->
  let o := msg_received self dev (MInpStandard r) in
  resends (done (run (self_after o) (device o) evs)) = [].
Proof.
  intros Ha o.
  assert (send_count (self_after o) = num_retry (self_after o)) as Hfull.
  { subst o. cbn. rewrite Ha, Z.eqb_refl.
    destruct (negb (force self)
              && db_is_current (handle_refresh dev r) (is_cmd1 r));
      reflexivity. }
  destruct (run_budget evs (self_after o) (device o)) as [Hlen _].
  rewrite Hfull, Z.sub_diag in Hlen.
  destruct (resends (done (run (self_after o) (device o) evs)))
    as [ | x xs ]; [ reflexivity | ].
  cbn in Hlen. lia.
Qed.

(** X7: for any limit, a handler that gets no reply resends its probe at
    each of the first [limit - 1] expired checks and at no later one. *)
Theorem refresh_retry_any_limit (dev : D) (probe : Message) (force : bool)
    (limit deadline : Z) (evs : list Event) :
  forallb (unanswered (dev_addr dev)) evs = true ->
  let r := run (init dev probe force limit deadline) dev evs in
  sends (done r)
  = repeat (probe, Self) (Nat.min (expiries evs) (Z.to_nat (limit - 1)))
  /\ answers r = repeat true (expiries evs)
  /\ final_device r = dev.
Proof.
  intros Hall r.
  destruct (run_unanswered evs (init dev probe force limit deadline) dev Hall)
    as (Hs & Ha & _ & Hd).
  cbn [init num_retry send_count msg] in Hs.
  repeat split; assumption.
Qed.

(** X8: when the download is forced, or the mirror is not current at the
    reply's cmd1, the mirror is cleared after the device took the reply, and
    [clear] is the only change made to it by the call; the handler of the one
    message sent is a download handler whose completion function sets the
    delta of the mirror to the cmd1 of this reply when the download succeeded
    and changes nothing when it failed.  With [force] the answer of the
    mirror plays no part. *)
Theorem refresh_download_sets_reply_delta (self : Handler) (dev : D)
    (r : InpStandard) :
  is_from_addr r = addr self ->
  force self = true
  \/ db_is_current (handle_refresh dev r) (is_cmd1 r) = false ->
  let o := msg_received self dev (MInpStandard r) in
  device o = db_clear (handle_refresh dev r)
  /\ db_writes (effects o) = [DbClear]
  /\ List.length (sends (effects o)) = 1%nat
  /\ (forall m h, In (m, h) (sends (effects o)) ->
        exists c x,
          h = DeviceDbGet c x
          /\ (forall d, on_done c true d
                        = (db_set_delta d (is_cmd1 r),
                           [Log LOG_info; DbSetDelta (is_cmd1 r)]))
          /\ (forall d, on_done c false d = (d, []))).
Proof.
  intros Ha Hstale o. subst o. cbn. rewrite Ha, Z.eqb_refl.
  assert (negb (force self)
          && db_is_current (handle_refresh dev r) (is_cmd1 r) = false) as Hb.
  { destruct Hstale as [Hf | Hc].
    - rewrite Hf. reflexivity.
    - rewrite Hc. apply andb_false_r. }
  rewrite Hb. cbn. repeat split.
  intros m h [Hs | []]. injection Hs as Hm Hh. subst m h.
  exists (mkOnDone (is_cmd1 r)), (db_msg self). repeat split.
Qed.

End DeviceRefreshLife.

(** ** DeviceDbModify *)

Section DeviceDbModifyLife.
Import Msg DeviceDbModify.
Context {Entry : Type}.

(** X9: an answer other than FINISHED comes with no effect at all and
    leaves the handler as it was; an answer FINISHED comes with exactly one
    of the two: a call of the completion callback, or the next message of the
    chain sent with the handler itself installed.  The handler never ends
    without telling its caller. *)
Theorem db_modify_never_silent (self : Handler Entry) (m : Message) :
  let o := msg_received self m in
  (result o <> FINISHED -> effects o = [] /\ self_after o = self)
  /\ (result o = FINISHED ->
      (List.length (on_done_calls (effects o))
       + List.length (sent (effects o)) = 1)%nat)
  /\ (sent (effects o) <> [] -> on_done_calls (effects o) = []).
Proof.
  cbv zeta. rewrite msg_received_by_kind.
  destruct (kind (db_addr self) m);
    [ | | destruct (next self) as [ | [msg' entry'] rest ] | ];
    cbn; (split; [ | split ]); intros K;
    try reflexivity; try discriminate K; try contradiction;
    try (split; reflexivity).
Qed.

Lemma add_update_fields (self : Handler Entry) (m : Message) (e : Entry) :
  add_update self m e
  = mk (db_addr self) (entry self) (orig_entry self) (next self ++ [(m, e)]).
Proof. destruct self; reflexivity. Qed.

Lemma firstn_own_length {A : Type} (k : nat) (l : list A) :
  firstn k l = firstn (List.length (firstn k l)) l.
Proof.
  rewrite length_firstn.
  destruct (Nat.le_gt_cases k (List.length l)) as [Hle | Hgt].
  - rewrite Nat.min_l by exact Hle. reflexivity.
  - rewrite Nat.min_r by lia. rewrite firstn_all. apply firstn_all2. lia.
Qed.

(** Over a run, by what the callback was called with. *)
Lemma offer_verdict (msgs : list Message) :
  forall (self : Handler Entry) (s : bool) (c : string) (x : option Entry),
    In (s, c, x) (on_done_calls (done (offer self msgs))) ->
    if s then
      added (done (offer self msgs)) = pending self
      /\ sent (done (offer self msgs)) = map fst (next self)
      /\ x = Some (orig_entry self)
    else
      (List.length (added (done (offer self msgs)))
       <= List.length (next self))%nat
      /\ x = None.
Proof.
  induction msgs as [ | m rest IH ]; intros self s c x Hin;
    [ contradiction | ].
  cbn [offer] in *. rewrite msg_received_by_kind in *.
  destruct (kind (db_addr self) m).
  - cbn in Hin |- *. apply IH with (c := c). exact Hin.
  - cbn in Hin |- *. apply IH with (c := c). exact Hin.
  - destruct self as [a cur orig queue]. cbn [next entry orig_entry db_addr] in *.
    destruct queue as [ | [msg' entry'] queue ].
    + cbn in Hin |- *. destruct Hin as [Hin | []]. injection Hin as Hs Hc Hx.
      subst s c x. repeat split.
    + cbn in Hin. specialize (IH (mk a entry' orig queue) s c x Hin).
      unfold added, sent, pending in *.
      cbn [stays result effects self_after done flat_map app
           next entry orig_entry map fst snd List.length] in IH |- *.
      destruct s.
      * destruct IH as (Ha & Hs & Hx). cbn. rewrite Ha, Hs.
        repeat split. exact Hx.
      * destruct IH as (Hl & Hx). cbn. split; [ lia | exact Hx ].
  - cbn in Hin |- *. destruct Hin as [Hin | []]. injection Hin as Hs Hc Hx.
    subst s c x. split; [ lia | reflexivity ].
Qed.

(** X10: when the callback reports success, every entry of the chain was
    given to the mirror, in the order of submission, and every queued
    message was sent; when it reports failure, fewer entries than the chain
    has were given to the mirror, and what was applied before the failure
    stays applied. *)
Theorem db_modify_success_means_all_applied (a : Address) (e0 : Entry)
    (ups : list (Message * Entry)) (msgs : list Message)
    (c : string) (x : option Entry) :
  let r := offer (chain a e0 ups) msgs in
  (In (true, c, x) (on_done_calls (done r)) ->
   added (done r) = e0 :: map snd ups
   /\ sent (done r) = map fst ups
   /\ x = Some e0)
  /\ (In (false, c, x) (on_done_calls (done r)) ->
      (List.length (added (done r)) < List.length (e0 :: map snd ups))%nat
      /\ added (done r) = firstn (List.length (added (done r)))
                            (e0 :: map snd ups)
      /\ x = None).
Proof.
  cbv zeta. rewrite chain_fields. split; intros Hin.
  - apply (offer_verdict msgs (mk a e0 e0 ups) true c x Hin).
  - destruct (offer_verdict msgs (mk a e0 e0 ups) false c x Hin) as [Hl Hx].
    cbn [next] in Hl.
    split; [ cbn [List.length]; rewrite length_map; lia | ].
    split; [ | exact Hx ].
    destruct (offer_added msgs (mk a e0 e0 ups)) as [Hadd _].
    cbv zeta in Hadd. unfold pending in Hadd. cbn [entry next db_addr] in Hadd.
    rewrite Hadd. apply firstn_own_length.
Qed.

(** Nothing is lost over a run. *)
Lemma offer_conserves (msgs : list Message) :
  forall self : Handler Entry,
    let r := offer self msgs in
    sent (done r) ++ map fst (next (final r)) = map fst (next self)
    /\ orig_entry (final r) = orig_entry self
    /\ db_addr (final r) = db_addr self
    /\ (in_place r = true -> added (done r) ++ pending (final r) = pending self).
Proof.
  induction msgs as [ | m rest IH ]; intros self.
  - cbn. repeat split.
  - cbv zeta. cbn [offer]. rewrite msg_received_by_kind.
    destruct (kind (db_addr self) m).
    + cbn [stays result effects sent flat_map self_after app done final
           in_place]. apply IH.
    + cbn [stays result effects sent flat_map self_after app done final
           in_place]. apply IH.
    + destruct self as [a cur orig queue].
      cbn [next entry orig_entry db_addr] in *.
      destruct queue as [ | [msg' entry'] queue ].
      * cbn. repeat split; discriminate.
      * specialize (IH (mk a entry' orig queue)). cbv zeta in IH.
        destruct IH as (Hs & Ho & Ha & Hp).
        unfold added, sent, pending in *.
        cbn [stays result effects self_after done final in_place flat_map app
             next entry orig_entry db_addr map fst snd] in Hs, Ho, Ha, Hp |- *.
        cbn. rewrite Hs. repeat split; try assumption.
        intros Hin. rewrite (Hp Hin). reflexivity.
    + cbn. repeat split; discriminate.
Qed.

(** X11: over any run no queued message is lost, sent twice or sent out of
    order: the messages sent, followed by the ones still queued, are the
    messages added, in the order they were added (after a failure the rest
    simply stays queued).  The entry kept for the callback and the address
    of the database never change.  While the handler is in place, the
    entries applied followed by the ones pending are the entries submitted. *)
Theorem db_modify_queue_conserved (a : Address) (e0 : Entry)
    (ups : list (Message * Entry)) (msgs : list Message) :
  let r := offer (chain a e0 ups) msgs in
  sent (done r) ++ map fst (next (final r)) = map fst ups
  /\ orig_entry (final r) = e0
  /\ db_addr (final r) = a
  /\ (in_place r = true ->
      added (done r) ++ pending (final r) = e0 :: map snd ups).
Proof.
  cbv zeta. rewrite chain_fields.
  apply (offer_conserves msgs (mk a e0 e0 ups)).
Qed.

Lemma offer_add_update (pre : list Message) :
  forall (self : Handler Entry) (mu : Message) (eu : Entry),
    no_fail (db_addr self) pre = true ->
    (acks (db_addr self) pre <= List.length (next self))%nat ->
    offer (add_update self mu eu) pre
    = mkRun (add_update (final (offer self pre)) mu eu)
        (done (offer self pre)) true.
Proof.
  induction pre as [ | m pre IH ]; intros self mu eu Hnf Hk; [ reflexivity | ].
  apply no_fail_cons in Hnf. destruct Hnf as [Hm Hnf].
  rewrite acks_cons in Hk.
  destruct self as [a cur orig queue]. cbn [db_addr next] in *.
  cbn [add_update offer]. rewrite !msg_received_by_kind. cbn [db_addr next].
  destruct (kind a m) eqn:Hkind; try contradiction.
  - cbn [stays result effects sent flat_map self_after app done final
         in_place].
    specialize (IH (mk a cur orig queue) mu eu Hnf Hk).
    cbn [add_update] in IH. rewrite IH. reflexivity.
  - cbn [stays result effects sent flat_map self_after app done final
         in_place].
    specialize (IH (mk a cur orig queue) mu eu Hnf Hk).
    cbn [add_update] in IH. rewrite IH. reflexivity.
  - destruct queue as [ | [msg' entry'] queue ]; [ cbn in Hk; lia | ].
    cbn [app next entry orig_entry db_addr stays result effects
         sent flat_map self_after done final in_place].
    cbn [List.length] in Hk.
    specialize (IH (mk a entry' orig queue) mu eu Hnf ltac:(cbn; lia)).
    cbn [add_update] in IH. rewrite IH. reflexivity.
Qed.

(** X12: an update added while the chain is under way is carried out as if
    it had been added at the start: as long as no failure came and the last
    step was not yet confirmed, offering the messages and then adding the
    update gives the handler that adding the update first and then offering
    the messages gives, with the same effects. *)
Theorem db_modify_late_update (a : Address) (e0 : Entry)
    (ups : list (Message * Entry)) (mu : Message) (eu : Entry)
    (pre : list Message) :
  no_fail a pre = true ->
  (acks a pre <= List.length ups)%nat ->
  offer (chain a e0 (ups ++ [(mu, eu)])) pre
  = mkRun (add_update (final (offer (chain a e0 ups) pre)) mu eu)
      (done (offer (chain a e0 ups) pre)) true.
Proof.
  intros Hnf Hk.
  assert (chain a e0 (ups ++ [(mu, eu)]) = add_update (chain a e0 ups) mu eu)
    as Hc by (rewrite !chain_fields; reflexivity).
  rewrite Hc. apply offer_add_update; rewrite chain_fields; assumption.
Qed.

End DeviceDbModifyLife.

(** ** The further properties on concrete inputs *)

Section LifeRuns.
Import Msg.

Lemma standard_cmd_finished_iff_callback_witness :
  StandardCmd.result
    (StandardCmd.msg_received (StandardCmd.init Sample.on_cmd)
       (MInpStandard Sample.on_reply_A))
  = FINISHED.
Proof.
  destruct (standard_cmd_finished_iff_callback (StandardCmd.init Sample.on_cmd)
              (MInpStandard Sample.on_reply_A)) as (_ & Hiff & _).
  apply Hiff. cbn. discriminate.
Defined.

Lemma standard_cmd_first_reply_witness :
  StandardCmd.in_place
    (StandardCmd.offer (StandardCmd.init Sample.on_cmd) Sample.on_traffic)
  = false
  /\ StandardCmd.callbacks
       (StandardCmd.done
          (StandardCmd.offer (StandardCmd.init Sample.on_cmd)
             Sample.on_traffic))
     = [Sample.on_reply_A].
Proof.
  destruct (standard_cmd_first_reply (StandardCmd.init Sample.on_cmd)
              Sample.on_traffic) as (_ & _ & Hfirst).
  apply (Hfirst [ Sample.echo Sample.on_cmd false;
                  MInpStandard Sample.on_reply_B ]
           Sample.on_reply_A [ MInpStandard Sample.on_reply_A ]).
  - reflexivity.
  - reflexivity.
  - reflexivity.
Defined.

Lemma refresh_is_expired_frame_witness :
  DeviceRefresh.sends (snd (fst (DeviceRefresh.is_expired Sample.refresh 105)))
  = [(MOutStandard Sample.probe, DeviceRefresh.Self)].
Proof.
  destruct (refresh_is_expired_frame Sample.refresh 105)
    as (_ & _ & _ & _ & Hinc & _).
  apply Hinc. reflexivity.
Defined.

Lemma refresh_resends_bounded_witness :
  DeviceRefresh.resends
    (DeviceRefresh.done
       (DeviceRefresh.run
          (DeviceRefresh.init Sample.dev7 (MOutStandard Sample.probe) false
             1 100)
          Sample.dev7 Sample.silence))
  = [].
Proof.
  destruct (refresh_resends_bounded Sample.dev7 (MOutStandard Sample.probe)
              false 1 100 Sample.silence) as (_ & _ & Hnone).
  apply Hnone. lia.
Defined.

Lemma refresh_no_resend_after_reply_witness :
  DeviceRefresh.resends
    (DeviceRefresh.done
       (DeviceRefresh.run
          (DeviceRefresh.self_after
             (DeviceRefresh.msg_received Sample.refresh Sample.dev7
                (MInpStandard Sample.fresh_reply)))
          (DeviceRefresh.device
             (DeviceRefresh.msg_received Sample.refresh Sample.dev7
                (MInpStandard Sample.fresh_reply)))
          Sample.silence))
  = [].
Proof.
  apply (refresh_no_resend_after_reply Sample.refresh Sample.dev7
           Sample.fresh_reply Sample.silence).
  reflexivity.
Defined.

Lemma refresh_retry_any_limit_witness :
  DeviceRefresh.sends
    (DeviceRefresh.done
       (DeviceRefresh.run
          (DeviceRefresh.init Sample.dev7 (MOutStandard Sample.probe) false
             2 100)
          Sample.dev7 Sample.silence))
  = [(MOutStandard Sample.probe, DeviceRefresh.Self)].
Proof.
  destruct (refresh_retry_any_limit Sample.dev7 (MOutStandard Sample.probe)
              false 2 100 Sample.silence) as (Hs & _).
  - reflexivity.
  - exact Hs.
Defined.

Lemma refresh_download_sets_reply_delta_witness :
  DeviceRefresh.device
    (DeviceRefresh.msg_received Sample.refresh Sample.dev7
       (MInpStandard Sample.stale_reply))
  = Sample.mkDev Sample.A 0xff None 0
  /\ DeviceRefresh.db_writes
       (DeviceRefresh.effects
          (DeviceRefresh.msg_received Sample.refresh Sample.dev7
             (MInpStandard Sample.stale_reply)))
     = [DeviceRefresh.DbClear].
Proof.
  destruct (refresh_download_sets_reply_delta Sample.refresh Sample.dev7
              Sample.stale_reply) as (Hd & Hw & _).
  - reflexivity.
  - right. reflexivity.
  - split; [ exact Hd | exact Hw ].
Defined.

Lemma db_modify_never_silent_witness :
  (List.length
     (DeviceDbModify.on_done_calls
        (DeviceDbModify.effects
           (DeviceDbModify.msg_received Sample.two_steps
              (Sample.reply Sample.A DIRECT_ACK 0x2f 0x00))))
   + List.length
       (DeviceDbModify.sent
          (DeviceDbModify.effects
             (DeviceDbModify.msg_received Sample.two_steps
                (Sample.reply Sample.A DIRECT_ACK 0x2f 0x00))))
   = 1)%nat.
Proof.
  destruct (db_modify_never_silent Sample.two_steps
              (Sample.reply Sample.A DIRECT_ACK 0x2f 0x00)) as (_ & Hone & _).
  apply Hone. reflexivity.
Defined.

Lemma db_modify_success_means_all_applied_witness :
  DeviceDbModify.added
    (DeviceDbModify.done
       (DeviceDbModify.offer Sample.two_steps Sample.confirmed))
  = [1%nat; 2%nat].
Proof.
  destruct (db_modify_success_means_all_applied Sample.A 1%nat
              [(Sample.db_write Sample.A 2, 2%nat)] Sample.confirmed
              DeviceDbModify.complete (Some 1%nat)) as (Hok & _).
  destruct Hok as (Hadd & _ & _).
  - left. reflexivity.
  - exact Hadd.
Defined.

Lemma db_modify_queue_conserved_witness :
  DeviceDbModify.added
    (DeviceDbModify.done
       (DeviceDbModify.offer Sample.two_steps Sample.first_confirmed))
  ++ DeviceDbModify.pending
       (DeviceDbModify.final
          (DeviceDbModify.offer Sample.two_steps Sample.first_confirmed))
  = [1%nat; 2%nat].
Proof.
  destruct (db_modify_queue_conserved Sample.A 1%nat
              [(Sample.db_write Sample.A 2, 2%nat)] Sample.first_confirmed)
    as (_ & _ & _ & Hall).
  apply Hall. reflexivity.
Defined.

Lemma db_modify_late_update_witness :
  DeviceDbModify.offer
    (DeviceDbModify.chain Sample.A 1%nat
       ([(Sample.db_write Sample.A 2, 2%nat)]
          ++ [(Sample.db_write Sample.A 3, 3%nat)]))
    Sample.first_confirmed
  = DeviceDbModify.mkRun
      (DeviceDbModify.add_update
         (DeviceDbModify.final
            (DeviceDbModify.offer
               (DeviceDbModify.chain Sample.A 1%nat
                  [(Sample.db_write Sample.A 2, 2%nat)])
               Sample.first_confirmed))
         (Sample.db_write Sample.A 3) 3%nat)
      (DeviceDbModify.done
         (DeviceDbModify.offer
            (DeviceDbModify.chain Sample.A 1%nat
               [(Sample.db_write Sample.A 2, 2%nat)])
            Sample.first_confirmed))
      true.
Proof.
  apply (db_modify_late_update Sample.A 1%nat
           [(Sample.db_write Sample.A 2, 2%nat)]
           (Sample.db_write Sample.A 3) 3%nat Sample.first_confirmed).
  - reflexivity.
  - cbv. lia.
Defined.

End LifeRuns.
